(** * Reservation controller: validation chain and status guard

    A shallow embedding of
    [back-end/src/reservations/reservations.controller.js]: the Express
    middleware chains exported for the routes [create], [read], [update],
    [delete] and [updateStatus], together with the JavaScript values they
    inspect.  Middleware is modelled as a function from the request and the
    mutable per-request state to an outcome ([next()], [next(err)], a thrown
    [TypeError], or a sent response) and the new state. *)

From Stdlib Require Import ZArith List Bool Ascii String Lia.
From Stdlib Require Import Numbers.DecimalString.
Import ListNotations.
Open Scope string_scope.
Open Scope Z_scope.
#[local] Set Warnings "-register-all".

(** ** JavaScript values *)

(** The values a JSON body can carry, plus [undefined] (the result of reading
    an absent property).  Numbers are modelled by the integers; an object is
    the list of its own properties in the order [Object.keys] enumerates
    them. *)
Inductive value : Type :=
| VUndefined
| VNull
| VBool (b : bool)
| VNum (n : Z)
| VStr (s : string)
| VArr (items : list value)
| VObj (props : list (string * value)).

Definition obj : Type := list (string * value).

(** Evaluation that a [TypeError] can cut short. *)
Inductive completion (A : Type) : Type :=
| Normal (a : A)
| Abrupt.
Arguments Normal {A}.
Arguments Abrupt {A}.

Definition bind {A B : Type} (c : completion A) (k : A -> completion B)
  : completion B :=
  match c with Normal a => k a | Abrupt => Abrupt end.

Notation "x <- c ;; k" := (bind c (fun x => k))
  (at level 61, c at next level, right associativity).

Module Js.

(** [Object.keys(o)] *)
Definition keys (o : obj) : list string := map fst o.

(** [key in o] for own properties *)
Definition has (o : obj) (key : string) : bool :=
  existsb (fun kv => String.eqb (fst kv) key) o.

(** [o[key]]: the property's value, [undefined] when absent *)
Fixpoint get (o : obj) (key : string) : value :=
  match o with
  | [] => VUndefined
  | (k, v) :: rest => if String.eqb k key then v else get rest key
  end.

(** [o[key] = v]: overwrite in place, or add as the last property *)
Fixpoint set (o : obj) (key : string) (v : value) : obj :=
  match o with
  | [] => [(key, v)]
  | (k, w) :: rest =>
      if String.eqb k key then (k, v) :: rest else (k, w) :: set rest key v
  end.

(** [{ ...a, ...b }]: the properties of [a], then each property of [b]
    assigned in turn *)
Definition spread (a b : obj) : obj :=
  fold_left (fun acc kv => set acc (fst kv) (snd kv)) b a.

(** A JavaScript object has no two properties of the same name. *)
Definition wf (o : obj) : Prop := NoDup (keys o).

(** ToBoolean *)
Definition truthy (v : value) : bool :=
  match v with
  | VUndefined | VNull => false
  | VBool b => b
  | VNum n => negb (n =? 0)
  | VStr s => negb (String.eqb s "")
  | VArr _ | VObj _ => true
  end.

(** [typeof v === "number"] *)
Definition is_number (v : value) : bool :=
  match v with VNum _ => true | _ => false end.

(** [v === "..."] against a string literal *)
Definition strict_eq_str (v : value) (lit : string) : bool :=
  match v with VStr s => String.eqb s lit | _ => false end.

(** The decimal numeral of an integer. *)
Definition num_to_string (n : Z) : string :=
  NilZero.string_of_int (Z.to_int n).

(** [Array.prototype.join] on strings *)
Definition join (sep : string) (l : list string) : string :=
  String.concat sep l.

(** ToString, as applied by template literals and by [Date.parse];
    [render] is the engine's Number::toString.  An array is joined with
    commas, [null] and [undefined] items printing as nothing, and fails
    where an item does.  An object from a JSON body prints as
    [[object Object]], unless it has a property [toString] of its own: that
    property, not being a function, hides the inherited method, the
    conversion finds nothing to call and a [TypeError] is raised. *)
Fixpoint to_string (render : Z -> string) (v : value) : completion string :=
  match v with
  | VUndefined => Normal "undefined"
  | VNull => Normal "null"
  | VBool true => Normal "true"
  | VBool false => Normal "false"
  | VNum n => Normal (render n)
  | VStr s => Normal s
  | VArr items =>
      (fix join_items (l : list value) : completion string :=
         match l with
         | [] => Normal ""
         | x :: rest =>
             s <- match x with
                  | VUndefined | VNull => Normal ""
                  | _ => to_string render x
                  end ;;
             match rest with
             | [] => Normal s
             | _ :: _ => r <- join_items rest ;; Normal (s ++ "," ++ r)
             end
         end) items
  | VObj props => if has props "toString" then Abrupt
                  else Normal "[object Object]"
  end.

(** [s.replace(c, repl)] for a one-character pattern: only the first
    occurrence is replaced *)
Fixpoint replace (c : ascii) (repl s : string) : string :=
  match s with
  | EmptyString => EmptyString
  | String a rest =>
      if Ascii.eqb a c then repl ++ rest else String a (replace c repl rest)
  end.

(** [s.slice(0, n)] *)
Definition slice0 (n : nat) (s : string) : string := substring 0 n s.

End Js.

(** ** Regular expressions

    The fragment of the pattern language the controller uses: literal
    characters, character ranges, sequence and alternation.  [accepts r s]
    is a match of the whole of [s], which is what a pattern anchored by [^]
    and [$] (without the multiline flag) asks for. *)
Module Regex.

Inductive t : Type :=
| Chr (c : ascii)
| Range (lo hi : ascii)
| Seq (r1 r2 : t)
| Alt (r1 r2 : t).

Definition in_range (lo hi c : ascii) : bool :=
  (N_of_ascii lo <=? N_of_ascii c)%N && (N_of_ascii c <=? N_of_ascii hi)%N.

(** Backtracking matcher: does [r] match a prefix of [s] whose remainder
    satisfies [k]? *)
Fixpoint run (r : t) (s : string) (k : string -> bool) : bool :=
  match r with
  | Chr c =>
      match s with
      | String a rest => Ascii.eqb a c && k rest
      | EmptyString => false
      end
  | Range lo hi =>
      match s with
      | String a rest => in_range lo hi a && k rest
      | EmptyString => false
      end
  | Seq r1 r2 => run r1 s (fun rest => run r2 rest k)
  | Alt r1 r2 => run r1 s k || run r2 s k
  end.

Definition accepts (r : t) (s : string) : bool :=
  run r s (fun rest => String.eqb rest "").

End Regex.

(** ** The host: built-ins the controller calls

    [Date.parse] and [Number] are the engine's; the clock and the time zone
    are the machine's.  [None] stands for [NaN].  Of [Number] the
    development uses one fact of the language definition: a non-empty
    string of decimal digits converts to the number it spells.  Of
    Number::toString it uses one too: a safe integer prints as its decimal
    numeral. *)

Definition is_digit (c : ascii) : bool := Regex.in_range "0" "9" c.

Definition digit_val (c : ascii) : Z := Z.of_N (N_of_ascii c) - 48.

Fixpoint all_digits (s : string) : bool :=
  match s with
  | EmptyString => true
  | String c rest => is_digit c && all_digits rest
  end.

Fixpoint dec_value_from (acc : Z) (s : string) : Z :=
  match s with
  | EmptyString => acc
  | String c rest => dec_value_from (10 * acc + digit_val c) rest
  end.

Definition dec_value (s : string) : Z := dec_value_from 0 s.

Record Host : Type := {
  Date_parse : string -> option Z;   (* milliseconds since the epoch *)
  Date_now : Z;                      (* [Date.now()] *)
  LocalTZA : Z -> Z;                 (* local time zone adjustment at a time *)
  Number_of : string -> option Z;    (* [Number(s)] *)
  Number_of_digits :
    forall s, s <> "" -> all_digits s = true ->
              Number_of s = Some (dec_value s);
  Number_toString : Z -> string;     (* Number::toString *)
  Number_toString_safe :
    forall n, - 2 ^ 53 < n < 2 ^ 53 ->
              Number_toString n = Js.num_to_string n
}.

Definition msPerDay : Z := 86400000.

(** [new Date(timestamp).getDay()]: the week day of the local time, Sunday
    being 0; [NaN] for an invalid date. *)
Definition getDay (h : Host) (timestamp : option Z) : option Z :=
  match timestamp with
  | Some t => Some (((t + LocalTZA h t) / msPerDay + 4) mod 7)
  | None => None
  end.

(** [a < b] and [a > b] on numbers: false as soon as one side is [NaN]. *)
Definition num_lt (a b : option Z) : bool :=
  match a, b with Some x, Some y => x <? y | _, _ => false end.

Definition num_gt (a b : option Z) : bool := num_lt b a.

(** ** Requests, responses and the data-access service *)

Record error : Type := { status : Z; message : string }.

Record response : Type := { code : Z; body : option value }.

(** What a request carries: [req.params.reservation_id] and [req.body.data]
    ([None] when the body has no [data]). *)
Record request : Type := {
  params_reservation_id : string;
  body_data : option obj
}.

(** Calls made on [reservations.service.js], in the order they are made. *)
Inductive call : Type :=
| SvcRead (reservation_id : string)
| SvcCreate (record : obj)
| SvcUpdate (record : obj)
| SvcDelete (reservation_id : value).

(** The data-access service is a collaborator outside the controller: its
    operations act on a store of type [DB].  An operation is given by what
    its promise resolves with.  A promise that is rejected (the database
    failing) is not an outcome here: what is said below of a route that has
    called the service is said of calls that resolve. *)
Record Service (DB : Type) : Type := {
  svc_read : DB -> string -> option obj;
  svc_create : DB -> obj -> DB * value;
  svc_update : DB -> obj -> DB * value;
  svc_delete : DB -> value -> DB
}.
Arguments svc_read {DB}.
Arguments svc_create {DB}.
Arguments svc_update {DB}.
Arguments svc_delete {DB}.

(** The state one request can change: [res.locals.reservation], the store,
    and the trace of service calls. *)
Record state (DB : Type) : Type := {
  locals_reservation : option obj;
  db : DB;
  calls : list call
}.
Arguments locals_reservation {DB}.
Arguments db {DB}.
Arguments calls {DB}.
Arguments Build_state {DB}.

Definition fresh {DB : Type} (d : DB) : state DB :=
  {| locals_reservation := None; db := d; calls := [] |}.

(** How a middleware function ends. *)
Inductive outcome : Type :=
| Next                      (* [next()] *)
| NextErr (e : error)       (* [next({ status, message })] *)
| Throw                     (* a [TypeError] reaches the error handler *)
| Sent (r : response).      (* a response was sent *)

Definition middleware (DB : Type) : Type :=
  request -> state DB -> outcome * state DB.

(** Express runs a route's functions in order while each calls [next()]. *)
Fixpoint run_chain {DB : Type} (chain : list (middleware DB))
  (req : request) (st : state DB) : outcome * state DB :=
  match chain with
  | [] => (Next, st)
  | f :: rest =>
      match f req st with
      | (Next, st') => run_chain rest req st'
      | stop => stop
      end
  end.

(** ** The controller *)

Section Controller.

Context {DB : Type}.
Variable h : Host.
Variable svc : Service DB.

(** The wording of the message of [utils/hasProperties], given the names of
    the missing properties. *)
Variable missing_message : list string -> string.

Let mw : Type := middleware DB.

Definition logged (c : call) (st : state DB) : state DB :=
  {| locals_reservation := locals_reservation st;
     db := db st;
     calls := calls st ++ [c] |}.

Definition with_db (d : DB) (st : state DB) : state DB :=
  {| locals_reservation := locals_reservation st;
     db := d;
     calls := calls st |}.

Definition with_reservation (r : obj) (st : state DB) : state DB :=
  {| locals_reservation := Some r;
     db := db st;
     calls := calls st |}.

(** ToString on this host *)
Definition ToString (v : value) : completion string :=
  Js.to_string (Number_toString h) v.

(** [const { data = {} } = req.body] *)
Definition data_or_empty (req : request) : obj :=
  match body_data req with Some data => data | None => [] end.

(** Modelled from the spec: [errors/asyncErrorBoundary] is not among the
    sources.  It hands a failure of the wrapped handler to the error
    handler, which is where a thrown error ends up in any case; the service
    calls of the wrapped handler resolving, the handler's outcome is
    kept. *)
Definition asyncErrorBoundary (delegate : mw) : mw := delegate.

Definition REQUIRED_PROPERTIES : list string :=
  [ "first_name"; "last_name"; "mobile_number";
    "reservation_date"; "reservation_time"; "people" ].

(** Modelled from the spec: a required field counts as supplied when it is
    present and non-empty. *)
Definition supplied (v : value) : bool :=
  match v with
  | VUndefined | VNull => false
  | VStr s => negb (String.eqb s "")
  | _ => true
  end.

(** Modelled from the spec: [utils/hasProperties] is not among the sources.
    The step rejects, with status 400 and a message listing exactly the
    missing fields, unless every required field is supplied. *)
Definition hasProperties (properties : list string) : mw :=
  fun req st =>
    let data := data_or_empty req in
    let missing :=
      filter (fun property => negb (supplied (Js.get data property)))
             properties in
    match missing with
    | [] => (Next, st)
    | _ =>
        (NextErr {| status := 400; message := missing_message missing |}, st)
    end.

Definition hasRequiredProperties : mw := hasProperties REQUIRED_PROPERTIES.

Definition VALID_PROPERTIES : list string :=
  [ "reservation_id"; "first_name"; "last_name"; "mobile_number";
    "reservation_date"; "reservation_time"; "people"; "status";
    "created_at"; "updated_at" ].

(** [VALID_PROPERTIES.includes(field)] *)
Definition includes (l : list string) (field : string) : bool :=
  existsb (String.eqb field) l.

Definition hasOnlyValidProperties : mw :=
  fun req st =>
    let data := data_or_empty req in
    let invalidFields :=
      filter (fun field => negb (includes VALID_PROPERTIES field))
             (Js.keys data) in
    match invalidFields with
    | _ :: _ =>
        (NextErr {| status := 400;
                    message := "Invalid field(s): "
                               ++ Js.join ", " invalidFields |}, st)
    | [] => (Next, st)
    end.

(** if 'status' property is present, validates that it is equal to "booked" *)
Definition statusIsBooked : mw :=
  fun req st =>
    match body_data req with
    | None => (Throw, st)
    | Some data =>
        let status := Js.get data "status" in
        if negb (Js.truthy status) then (Next, st)
        else if Js.strict_eq_str status "booked" then (Next, st)
        else
          match ToString status with
          | Normal s =>
              (NextErr {| status := 400;
                          message := "The reservation status is "
                                     ++ s ++ "." |}, st)
          | Abrupt => (Throw, st)
          end
    end.

(** checks if the reservation_date is a valid Date *)
Definition reservationDateIsValid (reservation_date : value)
  : completion bool :=
  text <- ToString reservation_date ;;
  match Date_parse h text with
  | Some _ => Normal true
  | None => Normal false
  end.

(** [/^(0[0-9]|1[0-9]|2[0-3]):[0-5][0-9]$/] *)
Definition TIME_PATTERN : Regex.t :=
  Regex.Seq
    (Regex.Alt (Regex.Seq (Regex.Chr "0") (Regex.Range "0" "9"))
       (Regex.Alt (Regex.Seq (Regex.Chr "1") (Regex.Range "0" "9"))
                  (Regex.Seq (Regex.Chr "2") (Regex.Range "0" "3"))))
    (Regex.Seq (Regex.Chr ":")
       (Regex.Seq (Regex.Range "0" "5") (Regex.Range "0" "9"))).

(** [reservation_time.match(...)]: only a string has a [match] method. *)
Definition reservationTimeIsValid (reservation_time : value)
  : completion bool :=
  match reservation_time with
  | VStr s => Normal (Regex.accepts TIME_PATTERN s)
  | _ => Abrupt
  end.

(** checks if the reservation_date is a Tuesday *)
Definition reservationDateIsTuesday (reservation_date : value)
  : completion bool :=
  date <- ToString reservation_date ;;
  let timestamp := Date_parse h (date ++ " PST") in
  match getDay h timestamp with
  | Some day => Normal (day =? 2)
  | None => Normal false
  end.

(** checks if the reservation is after the current time and date *)
Definition reservationNotInTheFuture (reservation_date reservation_time : value)
  : completion bool :=
  date <- ToString reservation_date ;;
  time <- ToString reservation_time ;;
  let reservationDateTimestamp :=
    Date_parse h (date ++ " " ++ time ++ " PST") in
  Normal (num_lt reservationDateTimestamp (Some (Date_now h))).

(** checks if the reservation time is NOT between 10:30 and 21:30 *)
Definition reservationTimeNotAllowed (reservation_time : value)
  : completion bool :=
  match reservation_time with
  | VStr s =>
      let reservationTime := Number_of h (Js.slice0 4 (Js.replace ":" "" s)) in
      Normal (num_lt reservationTime (Some 1030)
              || num_gt reservationTime (Some 2130))
  | _ => Abrupt
  end.

Definition INVALID_INPUTS : string := "Invalid input(s):".

(** The decision of [hasValidInputs] on the three fields it reads: the error
    it passes to [next], if any. *)
Definition checkInputs (people reservation_date reservation_time : value)
  : completion (option error) :=
  let invalidInputs := INVALID_INPUTS in
  let invalidInputs :=
    if negb (Js.is_number people)
    then invalidInputs ++ " people" else invalidInputs in
  dateIsValid <- reservationDateIsValid reservation_date ;;
  let invalidInputs :=
    if negb dateIsValid
    then invalidInputs ++ " reservation_date" else invalidInputs in
  isTime <- reservationTimeIsValid reservation_time ;;
  let invalidInputs :=
    if negb isTime
    then invalidInputs ++ " reservation_time" else invalidInputs in
  if negb (String.eqb invalidInputs INVALID_INPUTS) then
    Normal (Some {| status := 400; message := invalidInputs |})
  else
    isTuesday <- reservationDateIsTuesday reservation_date ;;
    if (isTuesday : bool) then
      Normal (Some {| status := 400;
                      message := "The restaurant is closed on Tuesdays." |})
    else
      notInTheFuture <-
        reservationNotInTheFuture reservation_date reservation_time ;;
      if (notInTheFuture : bool) then
        Normal (Some {| status := 400;
                        message := "Please enter future reservation date." |})
      else
        notAllowed <- reservationTimeNotAllowed reservation_time ;;
        if (notAllowed : bool) then
          Normal (Some {| status := 400;
                          message :=
                            "Please enter a time between 10:30 to 21:30." |})
        else Normal None.

(** Validates input for people, reservation_date and reservation_time *)
Definition hasValidInputs : mw :=
  fun req st =>
    match body_data req with
    | None => (Throw, st)
    | Some data =>
        match checkInputs (Js.get data "people")
                          (Js.get data "reservation_date")
                          (Js.get data "reservation_time") with
        | Abrupt => (Throw, st)
        | Normal (Some e) => (NextErr e, st)
        | Normal None => (Next, st)
        end
    end.

Definition json_data (v : value) : response :=
  {| code := 200; body := Some (VObj [("data", v)]) |}.

(** creates a new reservation adding 'status' key with default value "booked" *)
Definition create : mw :=
  fun req st =>
    let data := data_or_empty req in
    let newReservation := Js.set (Js.spread [] data) "status" (VStr "booked") in
    let (d, newData) := svc_create svc (db st) newReservation in
    (Sent {| code := 201; body := Some (VObj [("data", newData)]) |},
     with_db d (logged (SvcCreate newReservation) st)).

Definition reservationExists : mw :=
  fun req st =>
    let reservation_id := params_reservation_id req in
    let reservation := svc_read svc (db st) reservation_id in
    let st := logged (SvcRead reservation_id) st in
    match reservation with
    | Some r => (Next, with_reservation r st)
    | None =>
        (NextErr {| status := 404;
                    message := "Reservation ID " ++ reservation_id
                               ++ " does not exist." |}, st)
    end.

Definition read : mw :=
  fun req st =>
    let data :=
      match locals_reservation st with
      | Some r => VObj r
      | None => VUndefined
      end in
    (Sent (json_data data), st).

(** [{ ...res.locals.reservation, ...req.body.data }] *)
Definition updatedreservation (req : request) (st : state DB) : obj :=
  let stored :=
    match locals_reservation st with Some r => r | None => [] end in
  Js.spread (Js.spread [] stored) (data_or_empty req).

Definition update : mw :=
  fun req st =>
    let record := updatedreservation req st in
    let (d, data) := svc_update svc (db st) record in
    (Sent (json_data data), with_db d (logged (SvcUpdate record) st)).

(** validates that the status !== "finished" *)
Definition statusIsNotFinished : mw :=
  fun req st =>
    match locals_reservation st with
    | None => (Throw, st)
    | Some reservation =>
        let status := Js.get reservation "status" in
        if negb (Js.strict_eq_str status "finished") then (Next, st)
        else
          match ToString status with
          | Normal s =>
              (NextErr {| status := 400;
                          message := "A " ++ s
                                     ++ " reservation cannot be updated." |},
               st)
          | Abrupt => (Throw, st)
          end
    end.

Definition VALID_STATUSES : list string :=
  [ "booked"; "seated"; "finished"; "cancelled" ].

Definition hasValidStatusRequest : mw :=
  fun req st =>
    match body_data req with
    | None => (Throw, st)
    | Some data =>
        let status := Js.get data "status" in
        if Js.strict_eq_str status "booked"
           || Js.strict_eq_str status "seated"
           || Js.strict_eq_str status "finished"
           || Js.strict_eq_str status "cancelled"
        then (Next, st)
        else
          match ToString status with
          | Normal s =>
              (NextErr {| status := 400;
                          message := "The reservation status "
                                     ++ s ++ " is invalid." |}, st)
          | Abrupt => (Throw, st)
          end
    end.

Definition destroy : mw :=
  fun req st =>
    match locals_reservation st with
    | None => (Throw, st)
    | Some reservation =>
        let id := Js.get reservation "reservation_id" in
        let d := svc_delete svc (db st) id in
        (Sent {| code := 204; body := None |},
         with_db d (logged (SvcDelete id) st))
    end.

(** [module.exports]: the chain of each route. *)
Definition exports_create : list mw :=
  [ hasOnlyValidProperties; hasRequiredProperties; hasValidInputs;
    statusIsBooked; asyncErrorBoundary create ].

Definition exports_read : list mw :=
  [ asyncErrorBoundary reservationExists; read ].

Definition exports_update : list mw :=
  [ asyncErrorBoundary reservationExists; hasOnlyValidProperties;
    hasRequiredProperties; hasValidInputs; asyncErrorBoundary update ].

Definition exports_delete : list mw :=
  [ asyncErrorBoundary reservationExists; asyncErrorBoundary destroy ].

Definition exports_updateStatus : list mw :=
  [ asyncErrorBoundary reservationExists; statusIsNotFinished;
    hasValidStatusRequest; asyncErrorBoundary update ].

End Controller.

(** ** A reference host and an in-memory service

    One concrete instance of the parameters above, on which the chains can
    be evaluated: a host whose [Date.parse] reads the three shapes the
    controller produces from a [YYYY-MM-DD] date ([YYYY-MM-DD], read as UTC;
    [YYYY-MM-DD PST] and [YYYY-MM-DD HH:MM PST], read eight hours west of
    UTC) and the date-time [YYYY-MM-DDTHH:MM:SS], read as local time, and
    answers [NaN] on every other string, as an engine does once such a
    date-time is followed by anything but a zone offset; whose clock stands
    at 2026-11-01T00:00:00Z and whose local zone is UTC; and a service that
    keeps the reservations in a list.  On strings of other shapes a real
    engine may read more than this host does; nothing below rests on
    them. *)
Module Ref.

(** Days from 1970-01-01 to a date of the proleptic Gregorian calendar. *)
Definition days_from_civil (y m d : Z) : Z :=
  let y' := if m <=? 2 then y - 1 else y in
  let era := y' / 400 in
  let yoe := y' - era * 400 in
  let mp := (m + 9) mod 12 in
  let doy := (153 * mp + 2) / 5 + d - 1 in
  let doe := yoe * 365 + yoe / 4 - yoe / 100 + doy in
  era * 146097 + doe - 719468.

(** [YYYY-MM-DD] to the milliseconds of its midnight, UTC.  As in V8, a
    day up to 31 is taken in any month and runs over into the next. *)
Definition parse_date (s : string) : option Z :=
  let y := substring 0 4 s in
  let m := substring 5 2 s in
  let d := substring 8 2 s in
  if (String.length s =? 10)%nat
     && all_digits y && all_digits m && all_digits d
     && String.eqb (substring 4 1 s) "-" && String.eqb (substring 7 1 s) "-"
  then
    let y := dec_value y in
    let m := dec_value m in
    let d := dec_value d in
    if (1 <=? m) && (m <=? 12) && (1 <=? d) && (d <=? 31)
    then Some (days_from_civil y m d * msPerDay)
    else None
  else None.

(** [HH:MM] to the milliseconds since midnight *)
Definition parse_time (s : string) : option Z :=
  if Regex.accepts TIME_PATTERN s
  then Some ((dec_value (substring 0 2 s) * 60 + dec_value (substring 3 2 s))
             * 60000)
  else None.

(** [HH:MM:SS] to the milliseconds since midnight *)
Definition parse_seconds (s : string) : option Z :=
  let sec := substring 6 2 s in
  if (String.length s =? 8)%nat && String.eqb (substring 5 1 s) ":"
     && all_digits sec && (dec_value sec <=? 59)
  then option_map (fun t => t + dec_value sec * 1000)
                  (parse_time (substring 0 5 s))
  else None.

Definition PST_offset : Z := 8 * 3600000.

Definition parse (s : string) : option Z :=
  let n := String.length s in
  if (n =? 10)%nat then parse_date s
  else if (n =? 19)%nat && String.eqb (substring 10 1 s) "T" then
    match parse_date (substring 0 10 s),
          parse_seconds (substring 11 8 s) with
    | Some day, Some t => Some (day + t)
    | _, _ => None
    end
  else if (n =? 14)%nat && String.eqb (substring 10 4 s) " PST" then
    option_map (fun t => t + PST_offset) (parse_date (substring 0 10 s))
  else if (n =? 20)%nat && String.eqb (substring 10 1 s) " "
          && String.eqb (substring 16 4 s) " PST" then
    match parse_date (substring 0 10 s), parse_time (substring 11 5 s) with
    | Some day, Some t => Some (day + t + PST_offset)
    | _, _ => None
    end
  else None.

Definition to_number (s : string) : option Z :=
  if String.eqb s "" then Some 0
  else if all_digits s then Some (dec_value s)
  else None.

(** A numeral without its trailing zeros *)
Fixpoint strip_zeros (s : string) : string :=
  match s with
  | EmptyString => EmptyString
  | String c rest =>
      let r := strip_zeros rest in
      if String.eqb r "" && Ascii.eqb c "0" then EmptyString else String c r
  end.

(** Number::toString: the decimal numeral below 10^21, the exponent form
    from there on (10^21 prints as 1e+21). *)
Definition render (n : Z) : string :=
  if Z.abs n <? 10 ^ 21 then Js.num_to_string n
  else
    let digits := Js.num_to_string (Z.abs n) in
    let mantissa :=
      match strip_zeros digits with
      | String c EmptyString => String c EmptyString
      | String c rest => String c ("." ++ rest)
      | EmptyString => "0"
      end in
    (if n <? 0 then "-" else "") ++ mantissa ++ "e+"
    ++ Js.num_to_string (Z.of_nat (String.length digits) - 1).

Definition now : Z := days_from_civil 2026 11 1 * msPerDay.

Definition host : Host.
Proof.
  refine {| Date_parse := parse;
            Date_now := now;
            LocalTZA := fun _ => 0;
            Number_of := to_number;
            Number_of_digits := _;
            Number_toString := render;
            Number_toString_safe := _ |}.
  - intros s Hne Hd. unfold to_number.
    destruct (String.eqb_spec s "") as [E | _]; [contradiction|].
    now rewrite Hd.
  - intros n Hn. unfold render.
    change (2 ^ 53) with 9007199254740992 in Hn.
    change (10 ^ 21) with 1000000000000000000000.
    destruct (Z.ltb_spec (Z.abs n) 1000000000000000000000);
      [reflexivity | lia].
Defined.

(** The text of a value, empty where it has none. *)
Definition text (v : value) : string :=
  match Js.to_string render v with
  | Normal s => s
  | Abrupt => ""
  end.

Definition missing_message (missing : list string) : string :=
  "Missing field(s): " ++ Js.join ", " missing.

(** The store: the reservations, each under its [reservation_id]. *)
Definition store : Type := list obj.

Definition id_is (reservation_id : string) (r : obj) : bool :=
  String.eqb (text (Js.get r "reservation_id")) reservation_id.

Definition read (d : store) (reservation_id : string) : option obj :=
  find (id_is reservation_id) d.

Definition create (d : store) (record : obj) : store * value :=
  let row :=
    Js.set record "reservation_id" (VNum (Z.of_nat (List.length d) + 1)) in
  ((d ++ [row])%list, VObj row).

Definition update (d : store) (record : obj) : store * value :=
  let reservation_id := text (Js.get record "reservation_id") in
  (map (fun r => if id_is reservation_id r then record else r) d,
   VObj record).

Definition delete (d : store) (reservation_id : value) : store :=
  filter (fun r => negb (id_is (text reservation_id) r)) d.

Definition service : Service store :=
  {| svc_read := read;
     svc_create := create;
     svc_update := update;
     svc_delete := delete |}.

(** Sample data: a complete payload for Wednesday 2030-01-02 at noon, and a
    stored reservation in each of two states. *)
Definition payload : obj :=
  [ ("first_name", VStr "Ada"); ("last_name", VStr "Lovelace");
    ("mobile_number", VStr "555-0100");
    ("reservation_date", VStr "2030-01-02");
    ("reservation_time", VStr "12:00"); ("people", VNum 2) ].

Definition row (reservation_id : Z) (st : string) : obj :=
  (("reservation_id", VNum reservation_id) :: payload
   ++ [("status", VStr st)])%list.

Definition sample_store : store := [ row 1 "finished"; row 2 "booked" ].

Definition request_for (reservation_id : string) (data : obj) : request :=
  {| params_reservation_id := reservation_id; body_data := Some data |}.

End Ref.

(** ** Vocabulary of the properties

    The predicates and named values the statements below are written
    with. *)

(** A code point as an integer, for arithmetic on characters. *)
Definition char_code (c : ascii) : Z := Z.of_N (N_of_ascii c).

(** The shape the time pattern describes, written on code points: two
    digits, a colon, two digits, with the hour at most 23 and the minute at
    most 59. *)
Definition hhmm_shape (c1 c2 c3 c4 : ascii) : Prop :=
  is_digit c1 = true /\ is_digit c2 = true /\
  is_digit c3 = true /\ is_digit c4 = true /\
  10 * digit_val c1 + digit_val c2 <= 23 /\
  10 * digit_val c3 + digit_val c4 <= 59.

(** The string [c1 c2 : c3 c4]. *)
Definition hhmm (c1 c2 c3 c4 : ascii) : string :=
  String c1 (String c2 (String ":" (String c3 (String c4 "")))).

(** The time of day it spells, in minutes since midnight. *)
Definition minutes_of (c1 c2 c3 c4 : ascii) : Z :=
  60 * (10 * digit_val c1 + digit_val c2) + (10 * digit_val c3 + digit_val c4).

(** Service hours: 10:30 to 21:30, both included. *)
Definition within_service_hours (minutes : Z) : Prop :=
  10 * 60 + 30 <= minutes <= 21 * 60 + 30.

(** A value that is an HH:MM string within service hours. *)
Definition service_time (v : value) : Prop :=
  exists c1 c2 c3 c4,
    v = VStr (hhmm c1 c2 c3 c4) /\ hhmm_shape c1 c2 c3 c4 /\
    within_service_hours (minutes_of c1 c2 c3 c4).

(** The keys of a payload outside the allow-list, in payload order. *)
Definition invalid_fields (data : obj) : list string :=
  filter (fun field => negb (includes VALID_PROPERTIES field)) (Js.keys data).

(** The required fields a payload does not supply. *)
Definition missing_fields (data : obj) : list string :=
  filter (fun property => negb (supplied (Js.get data property)))
         REQUIRED_PROPERTIES.

(** The fields [hasValidInputs] finds malformed, in the order it checks
    them. *)
Definition malformed_fields (h : Host) (people : value)
  (reservation_date reservation_time : string) : list string :=
  ((if Js.is_number people then [] else ["people"])
   ++ (match Date_parse h reservation_date with
       | Some _ => []
       | None => ["reservation_date"]
       end)
   ++ (if Regex.accepts TIME_PATTERN reservation_time
       then [] else ["reservation_time"]))%list.

(** The errors the controller passes to [next]. *)
Definition CLOSED_TUESDAY : error :=
  {| status := 400; message := "The restaurant is closed on Tuesdays." |}.

Definition NOT_FUTURE : error :=
  {| status := 400; message := "Please enter future reservation date." |}.

Definition OUTSIDE_HOURS : error :=
  {| status := 400;
     message := "Please enter a time between 10:30 to 21:30." |}.

(** The business rules in the order the validator applies them. *)
Definition business_rules (h : Host) (reservation_date : string)
  (reservation_time : string) : completion (option error) :=
  isTuesday <- reservationDateIsTuesday h (VStr reservation_date) ;;
  if (isTuesday : bool) then Normal (Some CLOSED_TUESDAY)
  else
    notInTheFuture <- reservationNotInTheFuture h (VStr reservation_date)
                                                (VStr reservation_time) ;;
    if (notInTheFuture : bool) then Normal (Some NOT_FUTURE)
    else
      notAllowed <- reservationTimeNotAllowed h (VStr reservation_time) ;;
      if (notAllowed : bool) then Normal (Some OUTSIDE_HOURS)
      else Normal None.

Definition is_read (c : call) : bool :=
  match c with SvcRead _ => true | _ => false end.

(** How many times the service was asked to read a reservation. *)
Definition reads (l : list call) : nat := List.length (filter is_read l).

(** A middleware function that neither replaces [res.locals.reservation]
    nor reads the store again. *)
Definition keeps_reservation {DB : Type} (m : middleware DB) : Prop :=
  forall req st,
    locals_reservation (snd (m req st)) = locals_reservation st /\
    reads (calls (snd (m req st))) = reads (calls st).

(** The routes addressed by [:reservation_id]. *)
Definition id_routes {DB : Type} (h : Host) (svc : Service DB)
  (fmt : list string -> string) : list (list (middleware DB)) :=
  [ exports_read svc; exports_update h svc fmt;
    exports_delete svc; exports_updateStatus h svc ].

Definition NOT_FOUND (reservation_id : string) : error :=
  {| status := 404;
     message := "Reservation ID " ++ reservation_id ++ " does not exist." |}.

(** One of the four statuses a status update may ask for. *)
Definition valid_status (v : value) : Prop := In v (map VStr VALID_STATUSES).

Definition FINISHED : error :=
  {| status := 400; message := "A finished reservation cannot be updated." |}.

Definition INVALID_STATUS (requested : string) : error :=
  {| status := 400;
     message := "The reservation status " ++ requested ++ " is invalid." |}.

(** [hay] begins with [needle]; [needle] occurs in [hay]. *)
Fixpoint starts_with (needle hay : string) : bool :=
  match needle, hay with
  | EmptyString, _ => true
  | String a needle', String b hay' =>
      Ascii.eqb a b && starts_with needle' hay'
  | String _ _, EmptyString => false
  end.

Fixpoint contains (needle hay : string) : bool :=
  starts_with needle hay
  || match hay with
     | EmptyString => false
     | String _ rest => contains needle rest
     end.

Definition NOT_BOOKED (supplied_status : string) : error :=
  {| status := 400;
     message := "The reservation status is " ++ supplied_status ++ "." |}.

(** The allow-list as the specification words it, with [id] for the
    reservation's identifier. *)
Definition SPEC_ALLOW_LIST : list string :=
  [ "id"; "first_name"; "last_name"; "mobile_number"; "reservation_date";
    "reservation_time"; "people"; "status"; "created_at"; "updated_at" ].

Definition INVALID_FIELDS (extra : list string) : error :=
  {| status := 400; message := "Invalid field(s): " ++ Js.join ", " extra |}.

Definition MISSING_FIELDS (fmt : list string -> string)
  (missing : list string) : error :=
  {| status := 400; message := fmt missing |}.

(** Modelled from the spec: the message of [utils/hasProperties] lists
    exactly the missing fields.  Whichever of the required fields are
    missing, the message holds the name of each of them and the name of no
    other required field. *)
Definition lists_exactly (fmt : list string -> string) : Prop :=
  forall missing_one : string -> bool,
    let missing := filter missing_one REQUIRED_PROPERTIES in
    forall field,
      In field REQUIRED_PROPERTIES ->
      (contains field (fmt missing) = true <-> In field missing).

(** ** Listing, and the calls the cancel button makes *)

(** The listing queries of [reservations.service.js]. *)
Record ListService (DB : Type) : Type := {
  svc_list : DB -> list obj;
  svc_listByDate : DB -> value -> list obj;
  svc_listByMobileNumber : DB -> value -> list obj
}.
Arguments svc_list {DB}.
Arguments svc_listByDate {DB}.
Arguments svc_listByMobileNumber {DB}.

(** [req.query]: a parameter that is not given reads as [undefined]. *)
Record query : Type := { query_date : value; query_mobile_number : value }.

Inductive list_call : Type :=
| SvcList
| SvcListByDate (date : value)
| SvcListByMobileNumber (mobile_number : value).

(** List handler for reservation resources with optional date or
    mobile_number query (the controller's [list]): the response, and the
    queries made on the service. *)
Definition list_handler {DB : Type} (lsvc : ListService DB) (q : query)
  (d : DB) : response * list list_call :=
  let date := query_date q in
  let mobile_number := query_mobile_number q in
  let (data, made) :=
    if Js.truthy date then
      (svc_listByDate lsvc d date, [SvcListByDate date])
    else if Js.truthy mobile_number then
      (svc_listByMobileNumber lsvc d mobile_number,
       [SvcListByMobileNumber mobile_number])
    else (svc_list lsvc d, [SvcList]) in
  (json_data (VArr (map VObj data)), made).

(** A call of the front end on the API: method, path after the base URL,
    and the JSON body. *)
Record api_call : Type := {
  api_method : string;
  api_path : string;
  api_body : value
}.

(** [updateReservationStatus] of the front end's [utils/api] *)
Definition updateReservationStatus (h : Host) (updatedReservation : obj)
  : completion api_call :=
  reservation_id <-
    ToString h (Js.get updatedReservation "reservation_id") ;;
  Normal {| api_method := "PUT";
            api_path := "/reservations/" ++ reservation_id ++ "/status";
            api_body := VObj [("data", VObj updatedReservation)] |}.

(** [cancelClickHandler] of [CancelReservation]: the call it makes, if any,
    given the answer to [window.confirm]. *)
Definition cancelClickHandler (h : Host) (reservation : obj)
  (cancelReservation : bool) : completion (option api_call) :=
  let reservation_id := Js.get reservation "reservation_id" in
  if negb cancelReservation then Normal None
  else
    let updatedReservation :=
      [("reservation_id", reservation_id); ("status", VStr "cancelled")] in
    made <- updateReservationStatus h updatedReservation ;;
    Normal (Some made).

(** ** Further vocabulary *)

Definition is_write (c : call) : bool := negb (is_read c).

(** How many times the service was asked to change the store. *)
Definition writes (l : list call) : nat := List.length (filter is_write l).

(** Every route of [module.exports] that runs a chain. *)
Definition all_routes {DB : Type} (h : Host) (svc : Service DB)
  (fmt : list string -> string) : list (list (middleware DB)) :=
  exports_create h svc fmt :: id_routes h svc fmt.

Definition hours (n : Z) : Z := n * 3600000.

(** The instant at which day number [day] (days since 1970-01-01) begins
    eight hours west of UTC. *)
Definition midnight_PST (day : Z) : Z := day * msPerDay + hours 8.

(** The week day of day number [day], Sunday being 0. *)
Definition week_day (day : Z) : Z := (day + 4) mod 7.

(** A middleware function that sends no response, leaves the store as it
    was and asks the service for no write, however it ends. *)
Definition requests_no_write {DB : Type} (m : middleware DB) : Prop :=
  forall req st,
    match m req st with
    | (Sent _, _) => False
    | (_, st') => db st' = db st /\ writes (calls st') = writes (calls st)
    end.

(** Every error the middleware function passes to [next] has status 400. *)
Definition errors_400 {DB : Type} (m : middleware DB) : Prop :=
  forall req st e, fst (m req st) = NextErr e -> status e = 400.

Definition NO_CONTENT : response := {| code := 204; body := None |}.

(** The record the [create] handler hands to the service. *)
Definition newReservation (data : obj) : obj :=
  Js.set (Js.spread [] data) "status" (VStr "booked").

(** * Properties *)

(** ** Time of day *)

Lemma code_inj (a b : ascii) : char_code a = char_code b -> a = b.
Proof.
  unfold char_code. intros E. apply N2Z.inj in E.
  rewrite <- (ascii_N_embedding a), <- (ascii_N_embedding b). now rewrite E.
Qed.

Lemma ascii_eqb_code (a b : ascii) :
  Ascii.eqb a b = (char_code a =? char_code b).
Proof.
  destruct (Ascii.eqb_spec a b) as [-> | Hne].
  - now rewrite Z.eqb_refl.
  - symmetry. apply Z.eqb_neq. intros E. now apply Hne, code_inj.
Qed.

Lemma in_range_code (lo hi c : ascii) :
  Regex.in_range lo hi c
  = (char_code lo <=? char_code c) && (char_code c <=? char_code hi).
Proof.
  unfold Regex.in_range, char_code.
  f_equal.
  - destruct (N.leb_spec (N_of_ascii lo) (N_of_ascii c)),
      (Z.leb_spec (Z.of_N (N_of_ascii lo)) (Z.of_N (N_of_ascii c)));
      (reflexivity || lia).
  - destruct (N.leb_spec (N_of_ascii c) (N_of_ascii hi)),
      (Z.leb_spec (Z.of_N (N_of_ascii c)) (Z.of_N (N_of_ascii hi)));
      (reflexivity || lia).
Qed.

Lemma TIME_PATTERN_accepts (s : string) :
  Regex.accepts TIME_PATTERN s = true <->
  exists c1 c2 c3 c4, s = hhmm c1 c2 c3 c4 /\ hhmm_shape c1 c2 c3 c4.
Proof.
  unfold Regex.accepts, TIME_PATTERN, hhmm, hhmm_shape, is_digit, digit_val.
  fold char_code.
  split.
  - destruct s as [|c1 [|c2 [|c3 [|c4 [|c5 [|c6 s]]]]]]; cbn [Regex.run];
      rewrite ?andb_false_r; try discriminate.
    rewrite !ascii_eqb_code, !in_range_code.
      change (char_code "0") with 48. change (char_code "1") with 49.
      change (char_code "2") with 50. change (char_code "3") with 51.
      change (char_code "5") with 53. change (char_code "9") with 57.
      change (char_code ":") with 58. cbn [String.eqb]. rewrite !andb_true_r.
      intros H.
      rewrite ?orb_true_iff, ?andb_true_iff, ?Z.eqb_eq, ?Z.leb_le in H.
      assert (E3 : c3 = ":"%char).
      { apply code_inj. change (char_code ":") with 58. lia. }
      subst c3. exists c1, c2, c4, c5. split; [reflexivity|].
      rewrite !in_range_code, ?andb_true_iff, ?Z.leb_le.
      change (char_code "0") with 48. change (char_code "9") with 57.
      unfold char_code in *. lia.
  - intros (c1 & c2 & c3 & c4 & -> & H1 & H2 & H3 & H4 & Hh & Hm).
    cbn [Regex.run String.eqb].
    rewrite !ascii_eqb_code, !in_range_code in *.
    change (char_code "0") with 48 in *. change (char_code "1") with 49.
    change (char_code "2") with 50. change (char_code "3") with 51.
    change (char_code "5") with 53. change (char_code "9") with 57 in *.
    change (char_code ":") with 58.
    rewrite ?andb_true_iff, ?Z.leb_le in *.
    rewrite ?orb_true_iff, ?andb_true_iff, ?Z.eqb_eq, ?Z.leb_le.
    unfold char_code in *. lia.
Qed.

Lemma is_digit_code (c : ascii) :
  is_digit c = true <-> 48 <= char_code c <= 57.
Proof.
  unfold is_digit. rewrite in_range_code, andb_true_iff, !Z.leb_le.
  change (char_code "0") with 48. change (char_code "9") with 57. reflexivity.
Qed.

Lemma replace_colon_hhmm (c1 c2 c3 c4 : ascii) :
  is_digit c1 = true -> is_digit c2 = true ->
  Js.slice0 4 (Js.replace ":" "" (hhmm c1 c2 c3 c4))
  = String c1 (String c2 (String c3 (String c4 ""))).
Proof.
  intros H1 H2. apply is_digit_code in H1, H2.
  unfold hhmm. cbn [Js.replace].
  rewrite !ascii_eqb_code. change (char_code ":") with 58.
  destruct (Z.eqb_spec (char_code c1) 58); [lia|].
  destruct (Z.eqb_spec (char_code c2) 58); [lia|].
  rewrite Z.eqb_refl. reflexivity.
Qed.

Lemma reservationTimeNotAllowed_hhmm (h : Host) (c1 c2 c3 c4 : ascii) :
  hhmm_shape c1 c2 c3 c4 ->
  let n := 100 * (10 * digit_val c1 + digit_val c2)
           + (10 * digit_val c3 + digit_val c4) in
  reservationTimeNotAllowed h (VStr (hhmm c1 c2 c3 c4))
  = Normal ((n <? 1030) || (2130 <? n)).
Proof.
  intros (H1 & H2 & H3 & H4 & _) n.
  unfold reservationTimeNotAllowed.
  rewrite replace_colon_hhmm by assumption.
  rewrite Number_of_digits.
  - unfold num_gt, num_lt, dec_value. cbn [dec_value_from].
    replace (10 * (10 * (10 * (10 * 0 + digit_val c1) + digit_val c2)
                   + digit_val c3) + digit_val c4) with n by (subst n; ring).
    reflexivity.
  - discriminate.
  - cbn [all_digits]. now rewrite H1, H2, H3, H4.
Qed.

Lemma service_window (c1 c2 c3 c4 : ascii) :
  hhmm_shape c1 c2 c3 c4 ->
  let n := 100 * (10 * digit_val c1 + digit_val c2)
           + (10 * digit_val c3 + digit_val c4) in
  (n <? 1030) || (2130 <? n) = false <->
  within_service_hours (minutes_of c1 c2 c3 c4).
Proof.
  intros (H1 & H2 & H3 & H4 & Hh & Hm) n.
  apply is_digit_code in H1, H2, H3, H4.
  subst n. rewrite orb_false_iff, !Z.ltb_ge.
  unfold within_service_hours, minutes_of, digit_val, char_code in *. lia.
Qed.

Lemma time_checks_iff (h : Host) (v : value) :
  reservationTimeIsValid v = Normal true /\
  reservationTimeNotAllowed h v = Normal false <->
  service_time v.
Proof.
  split.
  - intros [Hv Hn]. destruct v; try discriminate.
    unfold reservationTimeIsValid in Hv. injection Hv as Hv.
    apply TIME_PATTERN_accepts in Hv as (c1 & c2 & c3 & c4 & -> & Hs).
    exists c1, c2, c3, c4. split; [reflexivity|]. split; [exact Hs|].
    apply (proj1 (service_window c1 c2 c3 c4 Hs)).
    rewrite (reservationTimeNotAllowed_hhmm h _ _ _ _ Hs) in Hn.
    now injection Hn.
  - intros (c1 & c2 & c3 & c4 & -> & Hs & Hw). split.
    + unfold reservationTimeIsValid. f_equal.
      apply TIME_PATTERN_accepts. now exists c1, c2, c3, c4.
    + rewrite (reservationTimeNotAllowed_hhmm h _ _ _ _ Hs). f_equal.
      now apply (service_window c1 c2 c3 c4 Hs).
Qed.

(** ** Objects *)

Lemma get_set (o : obj) (k k' : string) (v : value) :
  Js.get (Js.set o k v) k' = if String.eqb k k' then v else Js.get o k'.
Proof.
  induction o as [|[k0 w] o IH]; cbn.
  - reflexivity.
  - destruct (String.eqb_spec k0 k) as [-> | Hne]; cbn.
    + destruct (String.eqb_spec k k'); reflexivity.
    + destruct (String.eqb_spec k0 k') as [-> | Hne'].
      * destruct (String.eqb_spec k k'); [congruence | reflexivity].
      * exact IH.
Qed.

Lemma has_In (o : obj) (k : string) :
  Js.has o k = true <-> In k (Js.keys o).
Proof.
  unfold Js.has, Js.keys. rewrite existsb_exists, in_map_iff. split.
  - intros ([k0 v] & Hin & E). apply String.eqb_eq in E. cbn in E. subst.
    now exists (k, v).
  - intros ([k0 v] & E & Hin). cbn in E. subst.
    exists (k, v). split; [assumption | apply String.eqb_refl].
Qed.

Lemma get_absent (o : obj) (k : string) :
  Js.has o k = false -> Js.get o k = VUndefined.
Proof.
  induction o as [|[k0 w] o IH]; cbn; [reflexivity|].
  destruct (String.eqb k0 k); cbn; [discriminate | exact IH].
Qed.

Lemma get_spread (a b : obj) (k : string) :
  Js.wf b ->
  Js.get (Js.spread a b) k = if Js.has b k then Js.get b k else Js.get a k.
Proof.
  unfold Js.spread, Js.wf. revert a.
  induction b as [|[k0 v0] b IH]; intros a Hwf; cbn.
  - reflexivity.
  - inversion Hwf as [|? ? Hnotin Hwf']; subst.
    rewrite IH by assumption. rewrite get_set.
    destruct (String.eqb_spec k0 k) as [-> | Hne]; cbn.
    + destruct (Js.has b k) eqn:Hb; [|reflexivity].
      apply has_In in Hb. contradiction.
    + reflexivity.
Qed.

Lemma get_spread_empty (o : obj) (k : string) :
  Js.wf o -> Js.get (Js.spread [] o) k = Js.get o k.
Proof.
  intros Hwf. rewrite get_spread by assumption.
  destruct (Js.has o k) eqn:E; [reflexivity|].
  symmetry. now apply get_absent.
Qed.

(** ** Field checks *)

Lemma includes_In (l : list string) (field : string) :
  includes l field = true <-> In field l.
Proof.
  unfold includes. rewrite existsb_exists. split.
  - intros (x & Hin & E). apply String.eqb_eq in E. now subst.
  - intros Hin. exists field. split; [assumption | apply String.eqb_refl].
Qed.

Lemma invalid_fields_spec (data : obj) (k : string) :
  In k (invalid_fields data) <->
  In k (Js.keys data) /\ ~ In k VALID_PROPERTIES.
Proof.
  unfold invalid_fields. rewrite filter_In, negb_true_iff.
  split; intros [Hk Hv]; (split; [exact Hk|]).
  - intros Hin. apply includes_In in Hin. congruence.
  - destruct (includes VALID_PROPERTIES k) eqn:E; [|reflexivity].
    apply includes_In in E. contradiction.
Qed.

Lemma missing_fields_spec (data : obj) (k : string) :
  In k (missing_fields data) <->
  In k REQUIRED_PROPERTIES /\ supplied (Js.get data k) = false.
Proof.
  unfold missing_fields. now rewrite filter_In, negb_true_iff.
Qed.

Lemma hasOnlyValidProperties_eq {DB} (req : request) (st : state DB) :
  hasOnlyValidProperties req st =
  (match invalid_fields (data_or_empty req) with
   | [] => Next
   | extra => NextErr {| status := 400;
                         message := "Invalid field(s): "
                                    ++ Js.join ", " extra |}
   end, st).
Proof.
  unfold hasOnlyValidProperties, invalid_fields.
  now destruct (filter _ _).
Qed.

Lemma hasRequiredProperties_eq {DB} (fmt : list string -> string)
  (req : request) (st : state DB) :
  hasRequiredProperties fmt req st =
  (match missing_fields (data_or_empty req) with
   | [] => Next
   | missing => NextErr {| status := 400; message := fmt missing |}
   end, st).
Proof.
  unfold hasRequiredProperties, hasProperties, missing_fields.
  now destruct (filter _ _).
Qed.

(** ** Input validation *)

Lemma reservationDateIsValid_text (h : Host) (date : value) (text : string) :
  ToString h date = Normal text ->
  reservationDateIsValid h date
  = Normal (match Date_parse h text with Some _ => true | None => false end).
Proof.
  intros E. unfold reservationDateIsValid. rewrite E. cbn [bind].
  now destruct (Date_parse h text).
Qed.

Lemma reservationDateIsValid_true (h : Host) (date : value) :
  reservationDateIsValid h date = Normal true ->
  exists text t, ToString h date = Normal text
                 /\ Date_parse h text = Some t.
Proof.
  unfold reservationDateIsValid.
  destruct (ToString h date) as [text|]; [|discriminate]. cbn [bind].
  destruct (Date_parse h text) as [t|] eqn:E; [|discriminate].
  intros _. exists text, t. now split.
Qed.

Lemma reservationDateIsTuesday_text (h : Host) (date : value)
  (text : string) :
  ToString h date = Normal text ->
  reservationDateIsTuesday h date = reservationDateIsTuesday h (VStr text).
Proof.
  intros E. unfold reservationDateIsTuesday. now rewrite E.
Qed.

Lemma reservationNotInTheFuture_text (h : Host) (date : value)
  (text s : string) :
  ToString h date = Normal text ->
  reservationNotInTheFuture h date (VStr s)
  = reservationNotInTheFuture h (VStr text) (VStr s).
Proof.
  intros E. unfold reservationNotInTheFuture. now rewrite E.
Qed.

Lemma checkInputs_not_string (h : Host) (people date time : value) :
  (forall s, time <> VStr s) -> checkInputs h people date time = Abrupt.
Proof.
  intros Hns. unfold checkInputs.
  destruct (reservationDateIsValid h date); [|reflexivity]. cbn [bind].
  destruct time; try reflexivity. now destruct (Hns s).
Qed.

Lemma checkInputs_no_text (h : Host) (people date time : value) :
  ToString h date = Abrupt -> checkInputs h people date time = Abrupt.
Proof.
  intros E. unfold checkInputs, reservationDateIsValid. now rewrite E.
Qed.

Lemma checkInputs_string (h : Host) (people date : value)
  (text s : string) :
  ToString h date = Normal text ->
  checkInputs h people date (VStr s) =
  match malformed_fields h people text s with
  | [] => business_rules h text s
  | bad =>
      Normal (Some {| status := 400;
                      message := "Invalid input(s): " ++ Js.join " " bad |})
  end.
Proof.
  intros E. unfold checkInputs, malformed_fields, business_rules.
  rewrite (reservationDateIsValid_text h date text E).
  rewrite (reservationDateIsTuesday_text h date text E).
  rewrite (reservationNotInTheFuture_text h date text s E).
  cbn [reservationTimeIsValid bind].
  destruct (Js.is_number people), (Date_parse h text),
    (Regex.accepts TIME_PATTERN s); reflexivity.
Qed.

(** With a string for [reservation_time] and a [reservation_date] that has
    a text, the validator reports every malformed field in one message and
    looks at no business rule; with three well-formed fields it reports the
    first business rule broken, in the order Tuesday, past, service
    hours. *)
Lemma hasValidInputs_string_time {DB : Type} (h : Host) (req : request)
  (st : state DB) (data : obj) (text s : string) :
  body_data req = Some data ->
  ToString h (Js.get data "reservation_date") = Normal text ->
  Js.get data "reservation_time" = VStr s ->
  hasValidInputs h req st =
  (match malformed_fields h (Js.get data "people") text s with
   | [] =>
       match business_rules h text s with
       | Normal None => Next
       | Normal (Some e) => NextErr e
       | Abrupt => Throw
       end
   | bad =>
       NextErr {| status := 400;
                  message := "Invalid input(s): " ++ Js.join " " bad |}
   end, st).
Proof.
  intros Hd Hx Ht. unfold hasValidInputs.
  rewrite Hd, Ht, (checkInputs_string h _ _ text s Hx).
  destruct (malformed_fields h _ _ s); [|reflexivity].
  now destruct (business_rules h _ s) as [[e|]|].
Qed.

(** ** Claims about the validator *)

Lemma hhmm_shape_digits (c1 c2 c3 c4 : ascii) :
  (is_digit c1 && is_digit c2 && is_digit c3 && is_digit c4
   && (10 * digit_val c1 + digit_val c2 <=? 23)
   && (10 * digit_val c3 + digit_val c4 <=? 59)) = true ->
  hhmm_shape c1 c2 c3 c4.
Proof.
  rewrite !andb_true_iff, !Z.leb_le. unfold hhmm_shape. tauto.
Qed.

Lemma business_rules_pass (h : Host) (text s : string) :
  business_rules h text s = Normal None <->
  reservationDateIsTuesday h (VStr text) = Normal false
  /\ reservationNotInTheFuture h (VStr text) (VStr s) = Normal false
  /\ reservationTimeNotAllowed h (VStr s) = Normal false.
Proof.
  unfold business_rules.
  destruct (reservationDateIsTuesday h (VStr text)) as [[|]|]; cbn [bind];
    try (split; [discriminate | now intros (? & ? & ?)]).
  destruct (reservationNotInTheFuture h (VStr text) (VStr s)) as [[|]|];
    cbn [bind]; try (split; [discriminate | now intros (? & ? & ?)]).
  destruct (reservationTimeNotAllowed h (VStr s)) as [[|]|]; cbn [bind];
    try (split; [discriminate | now intros (? & ? & ?)]).
  now split.
Qed.

Lemma checkInputs_accepts_service_time (h : Host) (people date v : value) :
  checkInputs h people date v = Normal None -> service_time v.
Proof.
  intros H. destruct v as [| | | |s| |];
    try (rewrite checkInputs_not_string in H; [discriminate|];
         intros s; discriminate).
  destruct (ToString h date) as [text|] eqn:E;
    [|rewrite (checkInputs_no_text h _ _ _ E) in H; discriminate].
  rewrite (checkInputs_string h _ _ text s E) in H.
  apply (time_checks_iff h).
  unfold malformed_fields, reservationTimeIsValid in *.
  destruct (Regex.accepts TIME_PATTERN s).
  - split; [reflexivity|].
    destruct (Js.is_number people), (Date_parse h text);
      try discriminate.
    cbn [app] in H. now apply business_rules_pass in H.
  - destruct (Js.is_number people), (Date_parse h text); discriminate.
Qed.

Lemma checkInputs_passes (h : Host) (people date : value)
  (text s : string) :
  ToString h date = Normal text ->
  malformed_fields h people text s = [] ->
  reservationDateIsTuesday h date = Normal false ->
  reservationNotInTheFuture h date (VStr s) = Normal false ->
  reservationTimeNotAllowed h (VStr s) = Normal false ->
  checkInputs h people date (VStr s) = Normal None.
Proof.
  intros E Hm Ht Hp Hn. rewrite (checkInputs_string h _ _ text s E), Hm.
  apply business_rules_pass.
  rewrite <- (reservationDateIsTuesday_text h date text E).
  rewrite <- (reservationNotInTheFuture_text h date text s E).
  auto.
Qed.

(** C5. A [reservation_time] passes the two time checks of the validator
    exactly when it is a two-digit HH:MM string with HH at most 23 and MM at
    most 59 that lies between 10:30 and 21:30, bounds included; a payload
    the validator lets through has such a time, and such a time is let
    through when nothing else is wrong.  25:00, 10:60 and 9:30 fail the
    pattern; 10:30 and 21:30 pass both checks; 10:29 and 21:31 match the
    pattern and fail the service window. *)
Theorem C5_reservation_time_accepted (h : Host) :
  (forall v,
      reservationTimeIsValid v = Normal true /\
      reservationTimeNotAllowed h v = Normal false <-> service_time v)
  /\ (forall people date v,
         checkInputs h people date v = Normal None -> service_time v)
  /\ (forall people date v,
         service_time v ->
         Js.is_number people = true ->
         reservationDateIsValid h date = Normal true ->
         reservationDateIsTuesday h date = Normal false ->
         reservationNotInTheFuture h date v = Normal false ->
         checkInputs h people date v = Normal None)
  /\ reservationTimeIsValid (VStr "25:00") = Normal false
  /\ reservationTimeIsValid (VStr "10:60") = Normal false
  /\ reservationTimeIsValid (VStr "9:30") = Normal false
  /\ (reservationTimeIsValid (VStr "10:30") = Normal true /\
      reservationTimeNotAllowed h (VStr "10:30") = Normal false)
  /\ (reservationTimeIsValid (VStr "21:30") = Normal true /\
      reservationTimeNotAllowed h (VStr "21:30") = Normal false)
  /\ (reservationTimeIsValid (VStr "10:29") = Normal true /\
      reservationTimeNotAllowed h (VStr "10:29") = Normal true)
  /\ (reservationTimeIsValid (VStr "21:31") = Normal true /\
      reservationTimeNotAllowed h (VStr "21:31") = Normal true).
Proof.
  split; [exact (time_checks_iff h)|].
  split; [exact (checkInputs_accepts_service_time h)|].
  split.
  { intros people date v Hs Hp Hd Ht Hf.
    pose proof (proj2 (time_checks_iff h v) Hs) as [Hv Hn].
    destruct Hs as (c1 & c2 & c3 & c4 & -> & _).
    destruct (reservationDateIsValid_true h date Hd) as (text & t & E & Ep).
    apply (checkInputs_passes h people date text); try assumption.
    unfold malformed_fields. rewrite Hp, Ep.
    unfold reservationTimeIsValid in Hv. injection Hv as ->. reflexivity. }
  repeat split; try reflexivity.
  - exact (reservationTimeNotAllowed_hhmm h "1" "0" "3" "0"
             (hhmm_shape_digits "1" "0" "3" "0" eq_refl)).
  - exact (reservationTimeNotAllowed_hhmm h "2" "1" "3" "0"
             (hhmm_shape_digits "2" "1" "3" "0" eq_refl)).
  - exact (reservationTimeNotAllowed_hhmm h "1" "0" "2" "9"
             (hhmm_shape_digits "1" "0" "2" "9" eq_refl)).
  - exact (reservationTimeNotAllowed_hhmm h "2" "1" "3" "1"
             (hhmm_shape_digits "2" "1" "3" "1" eq_refl)).
Qed.

Lemma C5_witness :
  checkInputs Ref.host (VNum 2) (VStr "2030-01-02") (VStr "21:30")
  = Normal None.
Proof.
  refine (proj1 (proj2 (proj2 (C5_reservation_time_accepted Ref.host)))
            (VNum 2) (VStr "2030-01-02") (VStr "21:30") _ eq_refl eq_refl
            eq_refl eq_refl).
  exists "2"%char, "1"%char, "3"%char, "0"%char.
  split; [reflexivity|]. split.
  - apply hhmm_shape_digits. reflexivity.
  - unfold within_service_hours, minutes_of. cbn. lia.
Defined.




(** C4. A [reservation_time] that is not a string (here the number 1030)
    makes the validator raise a [TypeError] instead of reporting
    [Invalid input(s): reservation_time]: on the validator alone and on the
    whole [create] route, whatever the host and the store. *)
Theorem C4_numeric_time_throws {DB : Type} (h : Host) (svc : Service DB)
  (fmt : list string -> string) (st : state DB) :
  let data :=
    [ ("first_name", VStr "Ada"); ("last_name", VStr "Lovelace");
      ("mobile_number", VStr "555-0100");
      ("reservation_date", VStr "2030-01-02");
      ("reservation_time", VNum 1030); ("people", VNum 2) ] in
  let req := Ref.request_for "" data in
  reservationTimeIsValid (Js.get data "reservation_time") = Abrupt
  /\ hasValidInputs h req st = (Throw, st)
  /\ run_chain (exports_create h svc fmt) req st = (Throw, st).
Proof.
  cbn zeta. split; [reflexivity|].
  assert (H : hasValidInputs h
                (Ref.request_for ""
                   [ ("first_name", VStr "Ada"); ("last_name", VStr "Lovelace");
                     ("mobile_number", VStr "555-0100");
                     ("reservation_date", VStr "2030-01-02");
                     ("reservation_time", VNum 1030); ("people", VNum 2) ])
                st = (Throw, st)).
  { unfold hasValidInputs. cbn [body_data Ref.request_for].
    rewrite checkInputs_not_string; [reflexivity|].
    intros s. discriminate. }
  split; [exact H|].
  unfold exports_create. cbn [run_chain].
  rewrite hasOnlyValidProperties_eq, hasRequiredProperties_eq.
  cbn. rewrite checkInputs_not_string; [reflexivity|].
  intros s. discriminate.
Qed.

(** ** Routes addressed by a reservation id *)

Lemma reads_logged {DB : Type} (c : call) (st : state DB) :
  reads (calls (logged c st))
  = (reads (calls st) + if is_read c then 1 else 0)%nat.
Proof.
  unfold reads, logged. cbn [calls]. rewrite filter_app, length_app.
  cbn [filter]. now destruct (is_read c).
Qed.

Lemma keeps_run_chain {DB : Type} (chain : list (middleware DB)) :
  Forall keeps_reservation chain -> keeps_reservation (run_chain chain).
Proof.
  induction 1 as [|m chain Hm _ IH]; intros req st; cbn [run_chain].
  - auto.
  - specialize (Hm req st).
    destruct (m req st) as [[| e | | r] st']; cbn [snd] in *; try exact Hm.
    destruct (IH req st') as [IH1 IH2].
    destruct Hm as [Hm1 Hm2]. split; congruence.
Qed.

Lemma keeps_hasOnlyValidProperties {DB : Type} :
  keeps_reservation (@hasOnlyValidProperties DB).
Proof. intros req st. rewrite hasOnlyValidProperties_eq. now split. Qed.

Lemma keeps_hasRequiredProperties {DB : Type} (fmt : list string -> string) :
  keeps_reservation (@hasRequiredProperties DB fmt).
Proof. intros req st. rewrite hasRequiredProperties_eq. now split. Qed.

Lemma keeps_hasValidInputs {DB : Type} (h : Host) :
  keeps_reservation (@hasValidInputs DB h).
Proof.
  intros req st. unfold hasValidInputs.
  destruct (body_data req); [|now split].
  destruct (checkInputs _ _ _ _) as [[e|]|]; now split.
Qed.

Lemma keeps_statusIsNotFinished {DB : Type} (h : Host) :
  keeps_reservation (@statusIsNotFinished DB h).
Proof.
  intros req st. unfold statusIsNotFinished.
  destruct (locals_reservation st) eqn:E; [|now split].
  destruct (negb _); [now split|].
  destruct (ToString h _); now split.
Qed.

Lemma keeps_hasValidStatusRequest {DB : Type} (h : Host) :
  keeps_reservation (@hasValidStatusRequest DB h).
Proof.
  intros req st. unfold hasValidStatusRequest.
  destruct (body_data req); [|now split].
  match goal with |- context [if ?b then _ else _] => destruct b end;
    [now split|].
  destruct (ToString h _); now split.
Qed.

Lemma keeps_read {DB : Type} : keeps_reservation (@read DB).
Proof. intros req st. now split. Qed.

Lemma keeps_update {DB : Type} (svc : Service DB) :
  keeps_reservation (update svc).
Proof.
  intros req st. unfold update.
  destruct (svc_update svc (db st) _) as [d data]. cbn [snd].
  split; [reflexivity|].
  unfold with_db. cbn [calls]. rewrite reads_logged. cbn. lia.
Qed.

Lemma keeps_destroy {DB : Type} (svc : Service DB) :
  keeps_reservation (destroy svc).
Proof.
  intros req st. unfold destroy.
  destruct (locals_reservation st) eqn:E; [|now split]. cbn [snd].
  split; [exact E|].
  unfold with_db. cbn [calls]. rewrite reads_logged. cbn. lia.
Qed.

Lemma id_route_miss {DB : Type} (svc : Service DB)
  (rest : list (middleware DB)) (req : request) (st : state DB) :
  svc_read svc (db st) (params_reservation_id req) = None ->
  run_chain (asyncErrorBoundary (reservationExists svc) :: rest) req st
  = (NextErr (NOT_FOUND (params_reservation_id req)),
     logged (SvcRead (params_reservation_id req)) st).
Proof.
  intros E. cbn [run_chain]. unfold asyncErrorBoundary, reservationExists.
  cbn [db logged]. now rewrite E.
Qed.

Lemma id_route_hit {DB : Type} (svc : Service DB)
  (rest : list (middleware DB)) (req : request) (st : state DB) (r : obj) :
  svc_read svc (db st) (params_reservation_id req) = Some r ->
  run_chain (asyncErrorBoundary (reservationExists svc) :: rest) req st
  = run_chain rest req
      (with_reservation r (logged (SvcRead (params_reservation_id req)) st)).
Proof.
  intros E. cbn [run_chain]. unfold asyncErrorBoundary, reservationExists.
  cbn [db logged]. now rewrite E.
Qed.

Lemma id_route_once {DB : Type} (svc : Service DB)
  (rest : list (middleware DB)) (req : request) (st : state DB) (r : obj) :
  svc_read svc (db st) (params_reservation_id req) = Some r ->
  Forall keeps_reservation rest ->
  let final :=
    snd (run_chain (asyncErrorBoundary (reservationExists svc) :: rest)
                   req st) in
  locals_reservation final = Some r /\
  reads (calls final) = S (reads (calls st)).
Proof.
  intros E Hrest. cbn zeta. rewrite (id_route_hit svc rest req st r E).
  destruct (keeps_run_chain rest Hrest req
              (with_reservation r
                 (logged (SvcRead (params_reservation_id req)) st)))
    as [H1 H2].
  split; [exact H1|]. rewrite H2.
  unfold with_reservation. cbn [calls]. rewrite reads_logged. cbn. lia.
Qed.

(** C9. On each route addressed by a reservation id ([read], [update],
    [delete], [updateStatus]) the id is looked up first.  When the store has
    no such reservation the route ends there, with status 404 and a message
    naming the id, the lookup being the only service call.  When it has one,
    the rest of the chain runs with that record in [res.locals.reservation],
    the record is still there when the route ends, and the store has been
    read exactly once; the [read] route answers 200 with a body whose
    [data] is that record. *)
Theorem C9_reservation_resolved_once {DB : Type} (h : Host)
  (svc : Service DB) (fmt : list string -> string)
  (req : request) (st : state DB) :
  let id := params_reservation_id req in
  let looked_up := logged (SvcRead id) st in
  match svc_read svc (db st) id with
  | None =>
      Forall (fun chain =>
                run_chain chain req st = (NextErr (NOT_FOUND id), looked_up))
             (id_routes h svc fmt)
  | Some r =>
      Forall (fun chain =>
                run_chain chain req st
                = run_chain (tl chain) req (with_reservation r looked_up)
                /\ locals_reservation (snd (run_chain chain req st)) = Some r
                /\ reads (calls (snd (run_chain chain req st)))
                   = S (reads (calls st)))
             (id_routes h svc fmt)
      /\ run_chain (exports_read svc) req st
         = (Sent {| code := 200; body := Some (VObj [("data", VObj r)]) |},
            with_reservation r looked_up)
  end.
Proof.
  cbn zeta. destruct (svc_read svc (db st) (params_reservation_id req))
    as [r|] eqn:E.
  - split.
    + unfold id_routes, exports_read, exports_update, exports_delete,
        exports_updateStatus.
      repeat apply Forall_cons; try apply Forall_nil;
        (split; [now apply id_route_hit | apply id_route_once; [exact E|]]);
        repeat apply Forall_cons; try apply Forall_nil;
        unfold asyncErrorBoundary;
        auto using keeps_read, keeps_update, keeps_destroy,
          keeps_hasOnlyValidProperties, keeps_hasRequiredProperties,
          keeps_hasValidInputs, keeps_statusIsNotFinished,
          keeps_hasValidStatusRequest.
    + unfold exports_read. rewrite (id_route_hit svc _ req st r E).
      reflexivity.
  - unfold id_routes, exports_read, exports_update, exports_delete,
      exports_updateStatus.
    repeat apply Forall_cons; try apply Forall_nil;
      now apply id_route_miss.
Qed.

(** ** Status updates *)

Lemma starts_with_app (s rest : string) : starts_with s (s ++ rest) = true.
Proof.
  induction s as [|a s IH]; cbn; [reflexivity|].
  now rewrite Ascii.eqb_refl.
Qed.

Lemma contains_middle (before s rest : string) :
  contains s (before ++ s ++ rest) = true.
Proof.
  induction before as [|a before IH]; cbn [append].
  - destruct (s ++ rest) eqn:E; cbn [contains]; rewrite <- E, starts_with_app;
      reflexivity.
  - cbn [contains]. rewrite IH. apply orb_true_r.
Qed.

Lemma strict_eq_str_true (v : value) (lit : string) :
  Js.strict_eq_str v lit = true <-> v = VStr lit.
Proof.
  destruct v; cbn; try (split; [discriminate | discriminate]).
  rewrite String.eqb_eq. split; [now intros -> | now intros [= ->]].
Qed.

Lemma strict_eq_str_false (v : value) (lit : string) :
  Js.strict_eq_str v lit = false <-> v <> VStr lit.
Proof.
  rewrite <- strict_eq_str_true. now destruct (Js.strict_eq_str v lit).
Qed.

Lemma valid_status_test (v : value) :
  Js.strict_eq_str v "booked" || Js.strict_eq_str v "seated"
  || Js.strict_eq_str v "finished" || Js.strict_eq_str v "cancelled" = true
  <-> valid_status v.
Proof.
  unfold valid_status. cbn [map VALID_STATUSES In].
  rewrite !orb_true_iff, !strict_eq_str_true. intuition congruence.
Qed.

Lemma updateStatus_hit {DB : Type} (h : Host) (svc : Service DB)
  (req : request) (st : state DB) (r p : obj) :
  svc_read svc (db st) (params_reservation_id req) = Some r ->
  body_data req = Some p ->
  let looked_up :=
    with_reservation r (logged (SvcRead (params_reservation_id req)) st) in
  run_chain (exports_updateStatus h svc) req st =
  if Js.strict_eq_str (Js.get r "status") "finished" then
    (NextErr FINISHED, looked_up)
  else if Js.strict_eq_str (Js.get p "status") "booked"
          || Js.strict_eq_str (Js.get p "status") "seated"
          || Js.strict_eq_str (Js.get p "status") "finished"
          || Js.strict_eq_str (Js.get p "status") "cancelled"
  then update svc req looked_up
  else
    match ToString h (Js.get p "status") with
    | Normal s => (NextErr (INVALID_STATUS s), looked_up)
    | Abrupt => (Throw, looked_up)
    end.
Proof.
  intros Hr Hp. cbn zeta. unfold exports_updateStatus.
  rewrite (id_route_hit svc _ req st r Hr).
  cbn [run_chain]. unfold statusIsNotFinished at 1.
  cbn [locals_reservation with_reservation].
  destruct (Js.strict_eq_str (Js.get r "status") "finished") eqn:Hf;
    cbn [negb].
  { apply strict_eq_str_true in Hf. rewrite Hf. reflexivity. }
  unfold hasValidStatusRequest at 1. rewrite Hp.
  match goal with |- context [if ?b then _ else _] => destruct b end.
  - unfold asyncErrorBoundary, update.
    now destruct (svc_update svc _ _).
  - unfold INVALID_STATUS.
    now destruct (ToString h (Js.get p "status")).
Qed.

(** C10. A status update on a stored reservation that is not finished,
    carrying one of the four status values, hands the service the stored
    record overwritten by the payload: each property the payload has takes
    the payload's value, whatever that value is, and every other property
    keeps its stored value.  No other field of the payload is looked at. *)
Theorem C10_status_update_merges {DB : Type} (h : Host) (svc : Service DB)
  (req : request) (st : state DB) (r p : obj) :
  svc_read svc (db st) (params_reservation_id req) = Some r ->
  body_data req = Some p ->
  Js.wf r -> Js.wf p ->
  Js.get r "status" <> VStr "finished" ->
  valid_status (Js.get p "status") ->
  let looked_up :=
    with_reservation r (logged (SvcRead (params_reservation_id req)) st) in
  let record := updatedreservation req looked_up in
  run_chain (exports_updateStatus h svc) req st
  = (Sent (json_data (snd (svc_update svc (db st) record))),
     with_db (fst (svc_update svc (db st) record))
             (logged (SvcUpdate record) looked_up))
  /\ forall k, Js.get record k
               = if Js.has p k then Js.get p k else Js.get r k.
Proof.
  intros Hr Hp Hwr Hwp Hnf Hv. cbn zeta. split.
  - rewrite (updateStatus_hit h svc req st r p Hr Hp).
    apply strict_eq_str_false in Hnf. rewrite Hnf.
    apply valid_status_test in Hv. rewrite Hv.
    unfold update. cbn [db with_reservation logged].
    now destruct (svc_update svc (db st) _).
  - intros k. unfold updatedreservation, data_or_empty.
    cbn [locals_reservation with_reservation]. rewrite Hp.
    rewrite get_spread by assumption.
    now rewrite get_spread_empty by assumption.
Qed.

Lemma C10_witness :
  let st := fresh Ref.sample_store in
  let req :=
    Ref.request_for "2"
      [("status", VStr "seated"); ("reservation_date", VStr "yesterday")] in
  exists record,
    calls (snd (run_chain (exports_updateStatus Ref.host Ref.service) req st))
    = [SvcRead "2"; SvcUpdate record]
    /\ Js.get record "reservation_date" = VStr "yesterday"
    /\ Js.get record "status" = VStr "seated"
    /\ Js.get record "people" = VNum 2.
Proof.
  cbn zeta.
  assert (Hwr : Js.wf (Ref.row 2 "booked")).
  { unfold Js.wf. cbn.
    repeat (constructor; [cbn; intuition discriminate|]). constructor. }
  assert (Hwp : Js.wf [("status", VStr "seated");
                       ("reservation_date", VStr "yesterday")]).
  { unfold Js.wf. cbn.
    repeat (constructor; [cbn; intuition discriminate|]). constructor. }
  assert (Hnf : Js.get (Ref.row 2 "booked") "status" <> VStr "finished")
    by discriminate.
  assert (Hv : valid_status
                 (Js.get [("status", VStr "seated");
                          ("reservation_date", VStr "yesterday")] "status"))
    by (unfold valid_status; cbn; auto).
  pose proof
    (C10_status_update_merges Ref.host Ref.service
       (Ref.request_for "2"
          [("status", VStr "seated"); ("reservation_date", VStr "yesterday")])
       (fresh Ref.sample_store) (Ref.row 2 "booked")
       [("status", VStr "seated"); ("reservation_date", VStr "yesterday")]
       eq_refl eq_refl Hwr Hwp Hnf Hv) as H.
  cbn zeta in H. destruct H as [Hrun Hget].
  eexists. rewrite Hrun.
  split; [reflexivity|]. rewrite !Hget. repeat split.
Defined.

(** C2 (amended).  On a status update of a stored reservation, with a
    payload: the update goes through exactly when the stored status is not
    "finished" and the requested status is one of booked, seated, finished,
    cancelled.  A finished reservation is refused whatever status is
    requested, with the message that a finished reservation cannot be
    updated; on a reservation that is not finished, any other requested
    value is refused with a message naming that value as the engine prints
    it, and the request fails without a message when the value has no
    printed form. *)
Theorem C2_status_update_guard {DB : Type} (h : Host) (svc : Service DB)
  (req : request) (st : state DB) (r p : obj) :
  svc_read svc (db st) (params_reservation_id req) = Some r ->
  body_data req = Some p ->
  let current := Js.get r "status" in
  let requested := Js.get p "status" in
  let looked_up :=
    with_reservation r (logged (SvcRead (params_reservation_id req)) st) in
  ((exists resp st',
       run_chain (exports_updateStatus h svc) req st = (Sent resp, st'))
   <-> current <> VStr "finished" /\ valid_status requested)
  /\ (current = VStr "finished" ->
      run_chain (exports_updateStatus h svc) req st
      = (NextErr FINISHED, looked_up))
  /\ (current <> VStr "finished" -> ~ valid_status requested ->
      (forall printed, ToString h requested = Normal printed ->
         run_chain (exports_updateStatus h svc) req st
         = (NextErr (INVALID_STATUS printed), looked_up)
         /\ contains printed (message (INVALID_STATUS printed)) = true)
      /\ (ToString h requested = Abrupt ->
          run_chain (exports_updateStatus h svc) req st
          = (Throw, looked_up))).
Proof.
  intros Hr Hp. cbn zeta.
  rewrite (updateStatus_hit h svc req st r p Hr Hp).
  destruct (Js.strict_eq_str (Js.get r "status") "finished") eqn:Hf.
  - apply strict_eq_str_true in Hf. rewrite Hf.
    split; [split|split].
    + intros (resp & st' & E). discriminate.
    + intros [Hne _]. now destruct Hne.
    + reflexivity.
    + intros Hne. now destruct Hne.
  - apply strict_eq_str_false in Hf.
    match goal with |- context [if ?b then _ else _] =>
      destruct b eqn:Hv end.
    + apply valid_status_test in Hv.
      split; [split|split].
      * intros _. now split.
      * intros _. unfold update. destruct (svc_update svc _ _). eauto.
      * intros Hfin. contradiction.
      * intros _ Hnv. contradiction.
    + assert (Hnv : ~ valid_status (Js.get p "status")).
      { intros Hv'. apply valid_status_test in Hv'. congruence. }
      split; [split|split].
      * intros (resp & st' & E).
        destruct (ToString h (Js.get p "status")); discriminate.
      * intros [_ Hv']. contradiction.
      * intros Hfin. contradiction.
      * intros _ _. split.
        -- intros printed ->. split; [reflexivity|].
           unfold INVALID_STATUS. cbn [message]. apply contains_middle.
        -- now intros ->.
Qed.

Lemma C2_witness :
  exists resp st',
    run_chain (exports_updateStatus Ref.host Ref.service)
              (Ref.request_for "2" [("status", VStr "seated")])
              (fresh Ref.sample_store) = (Sent resp, st').
Proof.
  apply (proj2 (proj1 (C2_status_update_guard Ref.host Ref.service
                         (Ref.request_for "2" [("status", VStr "seated")])
                         (fresh Ref.sample_store) (Ref.row 2 "booked")
                         [("status", VStr "seated")] eq_refl eq_refl))).
  split; [discriminate | unfold valid_status; cbn; auto].
Defined.

(** C2 as stated fails: on a finished reservation a request for the status
    "banana", a value outside the four, is refused with the message about
    finished reservations, which does not name the value. *)
Lemma C2_finished_hides_rejected_value :
  ~ valid_status (VStr "banana") /\
  exists e,
    fst (run_chain (exports_updateStatus Ref.host Ref.service)
                   (Ref.request_for "1" [("status", VStr "banana")])
                   (fresh Ref.sample_store)) = NextErr e
    /\ contains "banana" (message e) = false.
Proof.
  split.
  - unfold valid_status. cbn. intuition discriminate.
  - eexists. split; reflexivity.
Qed.

(** ** Full updates *)

(** C1. A full update of a finished reservation goes through: reservation 1
    of the sample store is finished, and a complete, valid payload that
    changes its party size to 6 reaches the service and is stored. *)
Theorem C1_finished_reservation_updated :
  let stored := Ref.row 1 "finished" in
  let record := Js.set stored "people" (VNum 6) in
  let req := Ref.request_for "1" (Js.set Ref.payload "people" (VNum 6)) in
  Ref.read Ref.sample_store "1" = Some stored
  /\ Js.get stored "status" = VStr "finished"
  /\ exists st',
      run_chain (exports_update Ref.host Ref.service Ref.missing_message)
                req (fresh Ref.sample_store)
      = (Sent (json_data (VObj record)), st')
      /\ calls st' = [SvcRead "1"; SvcUpdate record]
      /\ Ref.read (db st') "1" = Some record.
Proof.
  cbn zeta. split; [reflexivity|]. split; [reflexivity|].
  eexists. split; [vm_compute; reflexivity|]. split; reflexivity.
Qed.

(** ** Creation *)

Lemma statusIsBooked_eq {DB : Type} (h : Host) (req : request)
  (st : state DB) (data : obj) :
  body_data req = Some data ->
  statusIsBooked h req st =
  if Js.truthy (Js.get data "status")
     && negb (Js.strict_eq_str (Js.get data "status") "booked")
  then
    match ToString h (Js.get data "status") with
    | Normal printed => (NextErr (NOT_BOOKED printed), st)
    | Abrupt => (Throw, st)
    end
  else (Next, st).
Proof.
  intros E. unfold statusIsBooked. rewrite E.
  destruct (Js.truthy _); cbn [negb andb]; [|reflexivity].
  destruct (Js.strict_eq_str _ _); cbn [negb]; [reflexivity|].
  unfold NOT_BOOKED. now destruct (ToString h _).
Qed.

Lemma hasValidInputs_state {DB : Type} (h : Host) (req : request)
  (st : state DB) : snd (hasValidInputs h req st) = st.
Proof.
  unfold hasValidInputs. destruct (body_data req); [|reflexivity].
  now destruct (checkInputs _ _ _ _) as [[e|]|].
Qed.

Lemma statusIsBooked_state {DB : Type} (h : Host) (req : request)
  (st : state DB) : snd (statusIsBooked h req st) = st.
Proof.
  unfold statusIsBooked. destruct (body_data req); [|reflexivity].
  destruct (negb _); [reflexivity|].
  destruct (Js.strict_eq_str _ _); [reflexivity|].
  now destruct (ToString h _).
Qed.

Lemma exports_create_eq {DB : Type} (h : Host) (svc : Service DB)
  (fmt : list string -> string) (req : request) (st : state DB) :
  run_chain (exports_create h svc fmt) req st =
  match invalid_fields (data_or_empty req) with
  | (_ :: _) as extra =>
      (NextErr {| status := 400;
                  message := "Invalid field(s): " ++ Js.join ", " extra |},
       st)
  | [] =>
      match missing_fields (data_or_empty req) with
      | (_ :: _) as missing =>
          (NextErr {| status := 400; message := fmt missing |}, st)
      | [] =>
          match hasValidInputs h req st with
          | (Next, _) =>
              match statusIsBooked h req st with
              | (Next, _) => create svc req st
              | stop => stop
              end
          | stop => stop
          end
      end
  end.
Proof.
  unfold exports_create. cbn [run_chain].
  rewrite hasOnlyValidProperties_eq.
  destruct (invalid_fields _); [|reflexivity].
  rewrite hasRequiredProperties_eq.
  destruct (missing_fields _); [|reflexivity].
  pose proof (hasValidInputs_state h req st) as Hs.
  destruct (hasValidInputs h req st) as [[| | |] s]; try reflexivity.
  cbn [snd] in Hs. subst s.
  pose proof (statusIsBooked_state h req st) as Hs.
  destruct (statusIsBooked h req st) as [[| | |] s]; try reflexivity.
  cbn [snd] in Hs. subst s. cbn [run_chain].
  unfold asyncErrorBoundary, create. now destruct (svc_create svc _ _).
Qed.

Lemma validators_keep_state {DB : Type} (h : Host) (svc : Service DB)
  (fmt : list string -> string) (req : request) (st : state DB) :
  (exists resp, fst (run_chain (exports_create h svc fmt) req st) = Sent resp)
  \/ snd (run_chain (exports_create h svc fmt) req st) = st.
Proof.
  rewrite exports_create_eq.
  destruct (invalid_fields _); [|now right].
  destruct (missing_fields _); [|now right].
  unfold hasValidInputs.
  destruct (body_data req) as [data|] eqn:Hd; [|now right].
  destruct (checkInputs _ _ _ _) as [[e|]|]; try now right.
  rewrite (statusIsBooked_eq h req st data Hd).
  destruct (_ && _); [destruct (ToString h _); now right|].
  unfold create. destruct (svc_create svc _ _) as [d newData].
  left. eexists. reflexivity.
Qed.

(** C3.  A creation payload that supplies the empty string as its status is
    accepted.  The property is present in the payload and differs from
    "booked", so by the comment above [statusIsBooked] ("if 'status'
    property is present, validates that it is equal to "booked"") the check
    should refuse it; the guard [if (!status)] lets it through, the route
    answers 201, and the record handed to the service has status "booked"
    in place of the supplied value. *)
Theorem C3_empty_status_accepted :
  let data := (Ref.payload ++ [("status", VStr "")])%list in
  let req := Ref.request_for "" data in
  Js.has data "status" = true
  /\ Js.get data "status" <> VStr "booked"
  /\ statusIsBooked Ref.host req (fresh Ref.sample_store)
     = (Next, fresh Ref.sample_store)
  /\ exists created st',
      run_chain (exports_create Ref.host Ref.service Ref.missing_message)
                req (fresh Ref.sample_store)
      = (Sent {| code := 201;
                 body := Some (VObj [("data", VObj created)]) |}, st')
      /\ calls st'
         = [SvcCreate (Js.set (Js.spread [] data) "status" (VStr "booked"))]
      /\ Js.get created "status" = VStr "booked".
Proof.
  cbn zeta. split; [reflexivity|]. split; [discriminate|].
  split; [reflexivity|].
  eexists. eexists. split; [vm_compute; reflexivity|].
  split; reflexivity.
Qed.

(** ** Allow-listed and required fields *)

(** C7 (amended).  The allow-list is [reservation_id], the six required
    fields, [status], [created_at] and [updated_at].  The keys of a payload
    outside it are found in payload order; when there is one or more, the
    check fails with a single message that lists exactly those keys, the
    [create] route ends on it before anything else is looked at, and so does
    the [update] route once the reservation has been found; a payload with
    no such key passes the check. *)
Theorem C7_only_valid_properties {DB : Type} (h : Host) (svc : Service DB)
  (fmt : list string -> string) (req : request) (st : state DB) :
  let extra := invalid_fields (data_or_empty req) in
  (forall k, In k extra <->
             In k (Js.keys (data_or_empty req)) /\ ~ In k VALID_PROPERTIES)
  /\ (extra = [] -> hasOnlyValidProperties req st = (Next, st))
  /\ (extra <> [] ->
      hasOnlyValidProperties req st = (NextErr (INVALID_FIELDS extra), st)
      /\ run_chain (exports_create h svc fmt) req st
         = (NextErr (INVALID_FIELDS extra), st)
      /\ forall r,
          svc_read svc (db st) (params_reservation_id req) = Some r ->
          run_chain (exports_update h svc fmt) req st
          = (NextErr (INVALID_FIELDS extra),
             with_reservation r
               (logged (SvcRead (params_reservation_id req)) st))).
Proof.
  cbn zeta. split; [apply invalid_fields_spec|]. split.
  - intros E. now rewrite hasOnlyValidProperties_eq, E.
  - intros Hne. split; [|split].
    + rewrite hasOnlyValidProperties_eq.
      now destruct (invalid_fields (data_or_empty req)).
    + rewrite exports_create_eq.
      now destruct (invalid_fields (data_or_empty req)).
    + intros r Hr. unfold exports_update.
      rewrite (id_route_hit svc _ req st r Hr). cbn [run_chain].
      rewrite hasOnlyValidProperties_eq.
      now destruct (invalid_fields (data_or_empty req)).
Qed.

Lemma C7_witness :
  run_chain (exports_create Ref.host Ref.service Ref.missing_message)
            (Ref.request_for "" (Ref.payload ++ [("table", VNum 4);
                                                 ("notes", VStr "window")])%list)
            (fresh Ref.sample_store)
  = (NextErr {| status := 400; message := "Invalid field(s): table, notes" |},
     fresh Ref.sample_store).
Proof.
  refine (proj1 (proj2 (proj2 (proj2 (C7_only_valid_properties Ref.host
            Ref.service Ref.missing_message
            (Ref.request_for "" (Ref.payload ++ [("table", VNum 4);
                                                 ("notes", VStr "window")])%list)
            (fresh Ref.sample_store))) _))).
  discriminate.
Defined.

(** C7 as stated fails: [id] is not on the controller's allow-list and
    [reservation_id] is.  A payload whose only key is [id] has all its keys
    in the list the claim gives, and the check rejects it; a payload whose
    only key is [reservation_id] has a key outside that list, and the check
    lets it pass. *)
Lemma C7_id_key_rejected :
  let data := [("id", VNum 1)] in
  let data' := [("reservation_id", VNum 1)] in
  (forall k, In k (Js.keys data) -> In k SPEC_ALLOW_LIST)
  /\ hasOnlyValidProperties (Ref.request_for "" data) (fresh Ref.sample_store)
     = (NextErr {| status := 400; message := "Invalid field(s): id" |},
        fresh Ref.sample_store)
  /\ includes SPEC_ALLOW_LIST "reservation_id" = false
  /\ hasOnlyValidProperties (Ref.request_for "1" data')
                            (fresh Ref.sample_store)
     = (Next, fresh Ref.sample_store).
Proof.
  cbn zeta. split; [|repeat split].
  intros k [<- | []]. cbn. auto.
Qed.

Lemma missing_message_lists_exactly : lists_exactly Ref.missing_message.
Proof.
  intros missing_one. cbn zeta. unfold REQUIRED_PROPERTIES. cbn [filter].
  destruct (missing_one "first_name"), (missing_one "last_name"),
    (missing_one "mobile_number"), (missing_one "reservation_date"),
    (missing_one "reservation_time"), (missing_one "people");
    intros field Hin; cbn [In] in Hin;
    repeat (destruct Hin as [<- | Hin]); try contradiction;
    match goal with
    | |- contains ?f ?m = true <-> _ =>
        let b := eval vm_compute in (contains f m) in
        change (contains f m) with b
    end;
    (split; [intros E; try discriminate E; cbn [In]; auto 10
            | intros E; try reflexivity; cbn [In] in E;
              intuition discriminate]).
Qed.

(** C8 (amended).  When a creation payload lacks one or more of the six
    required fields, or supplies it empty, the required-fields check fails
    with status 400 and a message that lists exactly the missing fields: it
    holds the name of every required field that is missing and of no
    required field that is supplied.  The [create] route then ends with
    status 400 without calling the service.  Its error is that of the
    required-fields check when every key of the payload is allow-listed;
    when the payload has a key outside the allow-list, the allow-list
    check, which runs first, ends the route with its own message, which
    lists those keys. *)
Theorem C8_required_properties {DB : Type} (h : Host) (svc : Service DB)
  (fmt : list string -> string) (req : request) (st : state DB) :
  lists_exactly fmt ->
  let missing := missing_fields (data_or_empty req) in
  let extra := invalid_fields (data_or_empty req) in
  missing <> [] ->
  (forall k, In k missing <->
             In k REQUIRED_PROPERTIES
             /\ supplied (Js.get (data_or_empty req) k) = false)
  /\ hasRequiredProperties fmt req st = (NextErr (MISSING_FIELDS fmt missing), st)
  /\ (forall field,
         In field REQUIRED_PROPERTIES ->
         (contains field (message (MISSING_FIELDS fmt missing)) = true
          <-> In field missing))
  /\ (exists e, run_chain (exports_create h svc fmt) req st = (NextErr e, st)
                /\ status e = 400)
  /\ (extra = [] ->
      run_chain (exports_create h svc fmt) req st
      = (NextErr (MISSING_FIELDS fmt missing), st))
  /\ (extra <> [] ->
      run_chain (exports_create h svc fmt) req st
      = (NextErr (INVALID_FIELDS extra), st)).
Proof.
  cbn zeta. intros Hfmt Hne. split; [apply missing_fields_spec|].
  split; [|split; [|split; [|split]]].
  - rewrite hasRequiredProperties_eq.
    now destruct (missing_fields (data_or_empty req)).
  - intros field Hin. cbn [message MISSING_FIELDS].
    exact (Hfmt (fun property =>
                   negb (supplied (Js.get (data_or_empty req) property)))
                field Hin).
  - rewrite exports_create_eq.
    destruct (invalid_fields (data_or_empty req)).
    + destruct (missing_fields (data_or_empty req)); [contradiction|].
      eexists. split; reflexivity.
    + eexists. split; reflexivity.
  - intros E. rewrite exports_create_eq, E.
    now destruct (missing_fields (data_or_empty req)).
  - intros E. rewrite exports_create_eq.
    now destruct (invalid_fields (data_or_empty req)).
Qed.

Lemma C8_witness :
  let req :=
    Ref.request_for "" [("first_name", VStr "Ada");
                        ("last_name", VStr "");
                        ("reservation_date", VStr "2030-01-02");
                        ("reservation_time", VStr "12:00")] in
  run_chain (exports_create Ref.host Ref.service Ref.missing_message)
            req (fresh Ref.sample_store)
  = (NextErr {| status := 400;
                message := "Missing field(s): last_name, mobile_number, people" |},
     fresh Ref.sample_store)
  /\ contains "last_name"
       (message (MISSING_FIELDS Ref.missing_message
                   (missing_fields (data_or_empty req)))) = true
  /\ contains "first_name"
       (message (MISSING_FIELDS Ref.missing_message
                   (missing_fields (data_or_empty req)))) = false.
Proof.
  cbn zeta.
  destruct (C8_required_properties Ref.host Ref.service
              Ref.missing_message
              (Ref.request_for "" [("first_name", VStr "Ada");
                                   ("last_name", VStr "");
                                   ("reservation_date", VStr "2030-01-02");
                                   ("reservation_time", VStr "12:00")])
              (fresh Ref.sample_store) missing_message_lists_exactly)
    as (_ & _ & Hlists & _ & Hrun & _).
  - discriminate.
  - split; [exact (Hrun eq_refl)|].
    split; [apply Hlists; cbn; auto | reflexivity].
Defined.

(** C8 as stated fails: a creation payload that lacks all six required
    fields and has a key outside the allow-list is rejected by the
    allow-list check, whose message lists that key and none of the missing
    fields. *)
Lemma C8_extra_key_reported_first :
  let data := [("table", VNum 4)] in
  missing_fields data = REQUIRED_PROPERTIES
  /\ exists e,
      fst (run_chain (exports_create Ref.host Ref.service Ref.missing_message)
                     (Ref.request_for "" data) (fresh Ref.sample_store))
      = NextErr e
      /\ message e = "Invalid field(s): table"
      /\ forallb (fun field => negb (contains field (message e)))
                 REQUIRED_PROPERTIES = true.
Proof.
  cbn zeta. split; [reflexivity|].
  eexists. split; [reflexivity|]. split; reflexivity.
Qed.

(** * Further properties *)

(** ** The steps before the handler *)

Lemma writes_logged {DB : Type} (c : call) (st : state DB) :
  writes (calls (logged c st))
  = (writes (calls st) + if is_write c then 1 else 0)%nat.
Proof.
  unfold writes, logged. cbn [calls]. rewrite filter_app, length_app.
  cbn [filter]. now destruct (is_write c).
Qed.

Lemma requests_no_write_run_chain {DB : Type}
  (chain : list (middleware DB)) :
  Forall requests_no_write chain -> requests_no_write (run_chain chain).
Proof.
  induction 1 as [|m chain Hm _ IH]; intros req st; cbn [run_chain].
  - now split.
  - specialize (Hm req st).
    destruct (m req st) as [[| e | | r] st']; try exact Hm.
    destruct Hm as [Hd Hw]. specialize (IH req st').
    destruct (run_chain chain req st') as [[| e | | r] st''];
      rewrite <- ?Hd, <- ?Hw; exact IH.
Qed.

Lemma unchanged_requests_no_write {DB : Type} (m : middleware DB) :
  (forall req st, snd (m req st) = st) ->
  (forall req st r, fst (m req st) <> Sent r) ->
  requests_no_write m.
Proof.
  intros Hs Hn req st. specialize (Hs req st). specialize (Hn req st).
  destruct (m req st) as [[| e | | r] st']; cbn [fst snd] in *; subst;
    try (now split).
  now destruct (Hn r).
Qed.

Lemma requests_no_write_validators {DB : Type} (h : Host)
  (fmt : list string -> string) :
  requests_no_write (@hasOnlyValidProperties DB)
  /\ requests_no_write (@hasRequiredProperties DB fmt)
  /\ requests_no_write (@hasValidInputs DB h)
  /\ requests_no_write (@statusIsBooked DB h)
  /\ requests_no_write (@statusIsNotFinished DB h)
  /\ requests_no_write (@hasValidStatusRequest DB h).
Proof.
  repeat split; apply unchanged_requests_no_write; intros req st;
    try (intros r);
    rewrite ?hasOnlyValidProperties_eq, ?hasRequiredProperties_eq;
    unfold hasValidInputs, statusIsBooked, statusIsNotFinished,
      hasValidStatusRequest;
    repeat match goal with
           | |- context [match ?x with _ => _ end] => destruct x
           end;
    cbn [fst snd]; (reflexivity || discriminate).
Qed.

Lemma requests_no_write_reservationExists {DB : Type} (svc : Service DB) :
  requests_no_write (reservationExists svc).
Proof.
  intros req st. unfold reservationExists.
  destruct (svc_read svc (db st) (params_reservation_id req));
    (split; [reflexivity|]);
    unfold with_reservation; cbn [calls]; rewrite writes_logged; cbn; lia.
Qed.

(** X4. In every route, the steps before the final handler send no
    response, leave the store as it was and ask the service for no write,
    whether they hand over to the handler or end the route; whatever is
    written is written by the handler the chain ends with, which is
    [create], [read], [update], [destroy] and [update] for the routes
    create, read, update, delete and updateStatus. *)
Theorem guards_request_no_write {DB : Type} (h : Host)
  (svc : Service DB) (fmt : list string -> string)
  (req : request) (st : state DB) :
  Forall (fun chain =>
            match run_chain (removelast chain) req st with
            | (Sent _, _) => False
            | (_, st') =>
                db st' = db st /\ writes (calls st') = writes (calls st)
            end)
         (all_routes h svc fmt)
  /\ map (fun chain => last chain read) (all_routes h svc fmt)
     = [ asyncErrorBoundary (create svc); read;
         asyncErrorBoundary (update svc); asyncErrorBoundary (destroy svc);
         asyncErrorBoundary (update svc) ].
Proof.
  destruct (requests_no_write_validators (DB := DB) h fmt)
    as (V1 & V2 & V3 & V4 & V5 & V6).
  pose proof (requests_no_write_reservationExists svc) as WE.
  split; [|reflexivity].
  unfold all_routes, id_routes, exports_create, exports_read, exports_update,
    exports_delete, exports_updateStatus.
  cbn [removelast].
  repeat apply Forall_cons; try apply Forall_nil;
    apply requests_no_write_run_chain; unfold asyncErrorBoundary;
    repeat constructor; assumption.
Qed.

(** ** Errors *)

Lemma checkInputs_400 (h : Host) (people date time : value) (e : error) :
  checkInputs h people date time = Normal (Some e) -> status e = 400.
Proof.
  unfold checkInputs, bind.
  repeat match goal with
         | |- context [match ?x with _ => _ end] => destruct x
         end;
    try discriminate; now intros [= <-].
Qed.

(** X5. Every error that a validator of the controller passes to [next]
    has status 400: the allow-list check, the check of the three inputs,
    the status check on creation, and the two checks of a status update.
    (A [TypeError] thrown by a validator is not such an error: it carries
    no status of the controller's.) *)
Theorem validators_raise_400 {DB : Type} (h : Host) :
  Forall (@errors_400 DB)
    [ hasOnlyValidProperties; hasValidInputs h; statusIsBooked h;
      statusIsNotFinished h; hasValidStatusRequest h ].
Proof.
  repeat apply Forall_cons; try apply Forall_nil; intros req st e.
  - rewrite hasOnlyValidProperties_eq. cbn [fst].
    destruct (invalid_fields _); [discriminate | now intros [= <-]].
  - unfold hasValidInputs. destruct (body_data req); [|discriminate].
    destruct (checkInputs _ _ _ _) as [[e'|]|] eqn:E; try discriminate.
    cbn [fst]. intros [= <-]. eapply checkInputs_400; eassumption.
  - unfold statusIsBooked. destruct (body_data req); [|discriminate].
    destruct (negb _); [discriminate|].
    destruct (Js.strict_eq_str _ _); [discriminate|].
    destruct (ToString h _); [now intros [= <-] | discriminate].
  - unfold statusIsNotFinished.
    destruct (locals_reservation st); [|discriminate].
    destruct (negb _); [discriminate|].
    destruct (ToString h _); [now intros [= <-] | discriminate].
  - unfold hasValidStatusRequest. destruct (body_data req); [|discriminate].
    match goal with |- context [if ?b then _ else _] => destruct b end;
      [discriminate|].
    destruct (ToString h _); [now intros [= <-] | discriminate].
Qed.

(** ** The status on creation *)

(** X14. What the status check on creation does with a status.  One that
    is truthy and is not the string "booked" never reaches the service: the
    check refuses it with status 400 and a message giving the value as the
    engine prints it, or, when the value has no printed form, throws; either
    way the route sends no response and the state is as it was.  One that
    is falsy, or is "booked", passes the check.  Whenever the route answers,
    the service was handed a record whose status is "booked". *)
Theorem statusIsBooked_decides {DB : Type} (h : Host) (svc : Service DB)
  (fmt : list string -> string) (req : request) (st : state DB) :
  let supplied_status := Js.get (data_or_empty req) "status" in
  (Js.truthy supplied_status = true -> supplied_status <> VStr "booked" ->
   (forall printed, ToString h supplied_status = Normal printed ->
      statusIsBooked h req st = (NextErr (NOT_BOOKED printed), st))
   /\ (ToString h supplied_status = Abrupt ->
       statusIsBooked h req st = (Throw, st))
   /\ (forall resp,
          fst (run_chain (exports_create h svc fmt) req st) <> Sent resp)
   /\ snd (run_chain (exports_create h svc fmt) req st) = st)
  /\ (Js.truthy supplied_status = false \/ supplied_status = VStr "booked" ->
      forall data, body_data req = Some data ->
                   statusIsBooked h req st = (Next, st))
  /\ (forall resp st',
         run_chain (exports_create h svc fmt) req st = (Sent resp, st') ->
         exists record,
           calls st' = (calls st ++ [SvcCreate record])%list
           /\ Js.get record "status" = VStr "booked").
Proof.
  cbn zeta. split; [|split].
  - intros Ht Hnb.
    assert (Hd : exists data, body_data req = Some data).
    { unfold data_or_empty in Ht. destruct (body_data req); [eauto|].
      discriminate. }
    destruct Hd as [data Hd].
    assert (E : data_or_empty req = data)
      by (unfold data_or_empty; now rewrite Hd).
    rewrite E in *. apply strict_eq_str_false in Hnb.
    pose proof (statusIsBooked_eq h req st data Hd) as Hs.
    rewrite Ht, Hnb in Hs. cbn [negb andb] in Hs.
    split; [intros printed Hp; now rewrite Hs, Hp|].
    split; [intros Hp; now rewrite Hs, Hp|].
    assert (Hrun : forall resp,
               fst (run_chain (exports_create h svc fmt) req st)
               <> Sent resp).
    { intros resp. rewrite exports_create_eq.
      destruct (invalid_fields _); [|cbn [fst]; discriminate].
      destruct (missing_fields _); [|cbn [fst]; discriminate].
      unfold hasValidInputs. rewrite Hd.
      destruct (checkInputs _ _ _ _) as [[e|]|]; cbn [fst]; try discriminate.
      rewrite Hs. destruct (ToString h _); cbn [fst]; discriminate. }
    split; [exact Hrun|].
    destruct (validators_keep_state h svc fmt req st) as [[resp Hr]|Hk];
      [now destruct (Hrun resp) | exact Hk].
  - intros Hok data Hd.
    assert (E : data_or_empty req = data)
      by (unfold data_or_empty; now rewrite Hd).
    rewrite E in Hok. rewrite (statusIsBooked_eq h req st data Hd).
    destruct Hok as [-> | ->]; reflexivity.
  - intros resp st'. rewrite exports_create_eq.
    destruct (invalid_fields _); [|discriminate].
    destruct (missing_fields _); [|discriminate].
    unfold hasValidInputs.
    destruct (body_data req) as [data|] eqn:Hd; [|discriminate].
    destruct (checkInputs _ _ _ _) as [[e|]|]; try discriminate.
    rewrite (statusIsBooked_eq h req st data Hd).
    destruct (_ && _); [destruct (ToString h _); discriminate|].
    unfold create. destruct (svc_create svc _ _) as [d newData].
    intros [= _ <-]. eexists. split; [reflexivity|].
    rewrite get_set. now rewrite String.eqb_refl.
Qed.

Lemma statusIsBooked_decides_witness :
  let req :=
    Ref.request_for "" (Ref.payload ++ [("status", VStr "seated")])%list in
  statusIsBooked Ref.host req (fresh Ref.sample_store)
  = (NextErr (NOT_BOOKED "seated"), fresh Ref.sample_store)
  /\ snd (run_chain
            (exports_create Ref.host Ref.service Ref.missing_message)
            req (fresh Ref.sample_store))
     = fresh Ref.sample_store.
Proof.
  cbn zeta.
  assert (Hne : Js.get (Ref.payload ++ [("status", VStr "seated")])%list
                       "status" <> VStr "booked") by discriminate.
  destruct (proj1 (statusIsBooked_decides Ref.host Ref.service
                     Ref.missing_message
                     (Ref.request_for ""
                        (Ref.payload ++ [("status", VStr "seated")])%list)
                     (fresh Ref.sample_store)) eq_refl Hne)
    as (Hcheck & _ & _ & Hstate).
  split; [exact (Hcheck "seated" eq_refl) | exact Hstate].
Defined.

(** ** Deleting *)

(** X1. Deleting a stored reservation asks the service, once, to delete the
    id the stored record carries and answers 204 without a body; neither
    the body of the request nor the status of the reservation is looked
    at. *)
Theorem delete_by_stored_id {DB : Type} (svc : Service DB) (req : request)
  (st : state DB) (r : obj) :
  svc_read svc (db st) (params_reservation_id req) = Some r ->
  let looked_up :=
    with_reservation r (logged (SvcRead (params_reservation_id req)) st) in
  let id := Js.get r "reservation_id" in
  run_chain (exports_delete svc) req st
  = (Sent NO_CONTENT,
     with_db (svc_delete svc (db st) id) (logged (SvcDelete id) looked_up)).
Proof.
  intros Hr. cbn zeta. unfold exports_delete.
  rewrite (id_route_hit svc _ req st r Hr). reflexivity.
Qed.

Lemma delete_by_stored_id_witness :
  db (snd (run_chain (exports_delete Ref.service)
                     (Ref.request_for "1" [("status", VStr "booked")])
                     (fresh Ref.sample_store)))
  = [Ref.row 2 "booked"].
Proof.
  rewrite (delete_by_stored_id Ref.service
             (Ref.request_for "1" [("status", VStr "booked")])
             (fresh Ref.sample_store) (Ref.row 1 "finished") eq_refl).
  reflexivity.
Defined.

(** ** Listing *)

(** X2. A listing asks the service one question.  A truthy [date] decides
    it, whatever [mobile_number] is; a [date] that is absent or empty is
    passed over for [mobile_number]; with neither, everything is listed. *)
Theorem list_dispatch {DB : Type} (lsvc : ListService DB) (d : DB) :
  (forall q, exists c, snd (list_handler lsvc q d) = [c])
  /\ (forall date m m',
         Js.truthy date = true ->
         list_handler lsvc {| query_date := date; query_mobile_number := m |} d
         = list_handler lsvc
             {| query_date := date; query_mobile_number := m' |} d
         /\ snd (list_handler lsvc
                   {| query_date := date; query_mobile_number := m |} d)
            = [SvcListByDate date])
  /\ (forall m,
         list_handler lsvc
           {| query_date := VStr ""; query_mobile_number := m |} d
         = list_handler lsvc
             {| query_date := VUndefined; query_mobile_number := m |} d)
  /\ (forall date m,
         Js.truthy date = false ->
         snd (list_handler lsvc
                {| query_date := date; query_mobile_number := m |} d)
         = if Js.truthy m then [SvcListByMobileNumber m] else [SvcList]).
Proof.
  unfold list_handler. cbn [query_date query_mobile_number].
  split; [|split; [|split]].
  - intros q. destruct (Js.truthy (query_date q));
      [|destruct (Js.truthy (query_mobile_number q))];
      eexists; reflexivity.
  - intros date m m' ->. now split.
  - reflexivity.
  - intros date m ->. now destruct (Js.truthy m).
Qed.

(** ** More on objects *)

Lemma has_set (o : obj) (k k' : string) (v : value) :
  Js.has (Js.set o k v) k' = String.eqb k k' || Js.has o k'.
Proof.
  unfold Js.has. induction o as [|[k0 w] o IH]; cbn [Js.set existsb fst].
  - now rewrite orb_false_r.
  - destruct (String.eqb_spec k0 k) as [-> | Hne]; cbn [existsb fst].
    + now destruct (String.eqb k k').
    + rewrite IH. destruct (String.eqb k0 k'), (String.eqb k k'); reflexivity.
Qed.

Lemma keys_set (o : obj) (k : string) (v : value) :
  Js.keys (Js.set o k v)
  = if Js.has o k then Js.keys o else (Js.keys o ++ [k])%list.
Proof.
  unfold Js.keys, Js.has.
  induction o as [|[k0 w] o IH]; cbn [Js.set existsb fst map app];
    [reflexivity|].
  destruct (String.eqb_spec k0 k) as [-> | Hne]; cbn [map fst orb];
    [reflexivity|].
  rewrite IH. now destruct (existsb _ o).
Qed.

Lemma wf_set (o : obj) (k : string) (v : value) :
  Js.wf o -> Js.wf (Js.set o k v).
Proof.
  unfold Js.wf. intros Hwf. rewrite keys_set.
  destruct (Js.has o k) eqn:E; [exact Hwf|].
  apply NoDup_app; [exact Hwf | repeat constructor; intros [] |].
  intros x Hx [<- | []].
  apply has_In in Hx. congruence.
Qed.

(** ** Creating and updating *)

(** X6. When a creation is accepted, the service was asked once, to create
    the payload with status "booked": every other property, the client's
    [reservation_id], [created_at] and [updated_at] among them, is handed
    over as the client sent it; the answer is 201 with what the service
    returned. *)
Theorem create_keeps_payload {DB : Type} (h : Host) (svc : Service DB)
  (fmt : list string -> string) (req : request) (st : state DB)
  (data : obj) (resp : response) (st' : state DB) :
  body_data req = Some data ->
  Js.wf data ->
  run_chain (exports_create h svc fmt) req st = (Sent resp, st') ->
  let record := newReservation data in
  st' = with_db (fst (svc_create svc (db st) record))
                (logged (SvcCreate record) st)
  /\ resp = {| code := 201;
               body := Some (VObj [("data",
                                    snd (svc_create svc (db st) record))]) |}
  /\ forall k, Js.get record k
               = if String.eqb "status" k then VStr "booked"
                 else Js.get data k.
Proof.
  intros Hd Hwf. rewrite exports_create_eq.
  destruct (invalid_fields _); [|discriminate].
  destruct (missing_fields _); [|discriminate].
  unfold hasValidInputs. rewrite Hd.
  destruct (checkInputs _ _ _ _) as [[e|]|]; try discriminate.
  rewrite (statusIsBooked_eq h req st data Hd).
  destruct (_ && _); [destruct (ToString h _); discriminate|].
  unfold create, data_or_empty. rewrite Hd. fold (newReservation data).
  destruct (svc_create svc (db st) (newReservation data)) as [d newData].
  intros [= <- <-]. cbn zeta. split; [reflexivity|]. split; [reflexivity|].
  intros k. unfold newReservation. rewrite get_set.
  destruct (String.eqb "status" k); [reflexivity|].
  now apply get_spread_empty.
Qed.

Lemma create_keeps_payload_witness :
  let data := (("reservation_id", VNum 77) :: Ref.payload)%list in
  exists record,
    calls (snd (run_chain
                  (exports_create Ref.host Ref.service Ref.missing_message)
                  (Ref.request_for "" data) (fresh Ref.sample_store)))
    = [SvcCreate record]
    /\ Js.get record "reservation_id" = VNum 77
    /\ Js.get record "status" = VStr "booked".
Proof.
  cbn zeta.
  assert (Hwf : Js.wf (("reservation_id", VNum 77) :: Ref.payload)).
  { unfold Js.wf. cbn.
    repeat (constructor; [cbn; intuition discriminate|]). constructor. }
  destruct (run_chain
              (exports_create Ref.host Ref.service Ref.missing_message)
              (Ref.request_for "" (("reservation_id", VNum 77)
                                   :: Ref.payload))
              (fresh Ref.sample_store)) as [o st'] eqn:E.
  assert (Ho : exists resp, o = Sent resp).
  { vm_compute in E. injection E as <- _. eexists. reflexivity. }
  destruct Ho as [resp ->].
  pose proof (create_keeps_payload Ref.host Ref.service Ref.missing_message
                (Ref.request_for "" (("reservation_id", VNum 77)
                                     :: Ref.payload))
                (fresh Ref.sample_store)
                (("reservation_id", VNum 77) :: Ref.payload)
                resp st' eq_refl Hwf E) as H.
  cbn zeta in H. destruct H as (-> & _ & Hget).
  eexists. split; [reflexivity|]. rewrite !Hget. split; reflexivity.
Defined.

Lemma exports_update_hit {DB : Type} (h : Host) (svc : Service DB)
  (fmt : list string -> string) (req : request) (st : state DB)
  (r data : obj) :
  svc_read svc (db st) (params_reservation_id req) = Some r ->
  body_data req = Some data ->
  let looked_up :=
    with_reservation r (logged (SvcRead (params_reservation_id req)) st) in
  run_chain (exports_update h svc fmt) req st =
  match invalid_fields data with
  | (_ :: _) as extra => (NextErr (INVALID_FIELDS extra), looked_up)
  | [] =>
      match missing_fields data with
      | (_ :: _) as missing =>
          (NextErr (MISSING_FIELDS fmt missing), looked_up)
      | [] =>
          match checkInputs h (Js.get data "people")
                            (Js.get data "reservation_date")
                            (Js.get data "reservation_time") with
          | Abrupt => (Throw, looked_up)
          | Normal (Some e) => (NextErr e, looked_up)
          | Normal None => update svc req looked_up
          end
      end
  end.
Proof.
  intros Hr Hd. cbn zeta. unfold exports_update.
  rewrite (id_route_hit svc _ req st r Hr). cbn [run_chain].
  rewrite hasOnlyValidProperties_eq. unfold data_or_empty at 1. rewrite Hd.
  destruct (invalid_fields data); [|reflexivity].
  rewrite hasRequiredProperties_eq. unfold data_or_empty at 1. rewrite Hd.
  destruct (missing_fields data); [|reflexivity].
  unfold hasValidInputs at 1. rewrite Hd.
  destruct (checkInputs _ _ _ _) as [[e|]|]; try reflexivity.
  unfold asyncErrorBoundary, update. now destruct (svc_update svc _ _).
Qed.

Lemma invalid_fields_set_status (data : obj) (v : value) :
  invalid_fields (Js.set data "status" v) = invalid_fields data.
Proof.
  unfold invalid_fields. rewrite keys_set.
  destruct (Js.has data "status"); [reflexivity|].
  rewrite filter_app. cbn. now rewrite app_nil_r.
Qed.

Lemma missing_fields_set_status (data : obj) (v : value) :
  missing_fields (Js.set data "status" v) = missing_fields data.
Proof.
  unfold missing_fields, REQUIRED_PROPERTIES. cbn [filter].
  now rewrite !get_set.
Qed.

(** X3. A full update never looks at the status in its payload: if an
    update of a stored reservation is accepted, the same update with any
    value whatever put in the payload's [status] is accepted too, and the
    record handed to the service carries that value as its status. *)
Theorem update_takes_any_status {DB : Type} (h : Host) (svc : Service DB)
  (fmt : list string -> string) (st : state DB) (id : string)
  (r data : obj) (v : value) :
  svc_read svc (db st) id = Some r ->
  Js.wf data ->
  (exists resp st',
      run_chain (exports_update h svc fmt)
                {| params_reservation_id := id; body_data := Some data |} st
      = (Sent resp, st')) ->
  exists resp st' record,
    run_chain (exports_update h svc fmt)
              {| params_reservation_id := id;
                 body_data := Some (Js.set data "status" v) |} st
    = (Sent resp, st')
    /\ calls st' = (calls st ++ [SvcRead id; SvcUpdate record])%list
    /\ Js.get record "status" = v.
Proof.
  intros Hr Hwf (resp & st' & Hrun).
  rewrite (exports_update_hit h svc fmt
             {| params_reservation_id := id; body_data := Some data |}
             st r data Hr eq_refl) in Hrun.
  rewrite (exports_update_hit h svc fmt
             {| params_reservation_id := id;
                body_data := Some (Js.set data "status" v) |}
             st r (Js.set data "status" v) Hr eq_refl).
  rewrite invalid_fields_set_status, missing_fields_set_status, !get_set.
  cbn [String.eqb Ascii.eqb Bool.eqb].
  cbn zeta in *.
  destruct (invalid_fields data); [|discriminate].
  destruct (missing_fields data); [|discriminate].
  destruct (checkInputs _ _ _ _) as [[e|]|]; try discriminate.
  unfold update. destruct (svc_update svc _ _) as [d newData].
  do 3 eexists. split; [reflexivity|]. split.
  - cbn [calls with_db logged with_reservation params_reservation_id].
    now rewrite <- app_assoc.
  - unfold updatedreservation, data_or_empty.
    cbn [locals_reservation with_reservation body_data].
    rewrite get_spread by now apply wf_set.
    rewrite has_set, get_set. reflexivity.
Qed.

Lemma update_takes_any_status_witness :
  exists resp st' record,
    run_chain (exports_update Ref.host Ref.service Ref.missing_message)
              (Ref.request_for "2" (Js.set Ref.payload "status" (VNum 7)))
              (fresh Ref.sample_store)
    = (Sent resp, st')
    /\ calls st' = [SvcRead "2"; SvcUpdate record]
    /\ Js.get record "status" = VNum 7.
Proof.
  assert (Hwf : Js.wf Ref.payload).
  { unfold Js.wf. cbn.
    repeat (constructor; [cbn; intuition discriminate|]). constructor. }
  refine (update_takes_any_status Ref.host Ref.service Ref.missing_message
            (fresh Ref.sample_store) "2" (Ref.row 2 "booked") Ref.payload
            (VNum 7) eq_refl Hwf _).
  eexists. eexists. vm_compute. reflexivity.
Defined.

(** ** More on the validator *)

(** X7. The closed-day check looks at the week day, on the server's clock,
    of the instant at which the requested date begins in PST.  On a server
    whose zone lies from UTC-8 up to UTC+16 that is the week day of the
    requested date; on a server west of UTC-8 it is the week day of the day
    before. *)
Theorem tuesday_follows_server_zone (h : Host) (date : value)
  (text : string) (day : Z) :
  ToString h date = Normal text ->
  Date_parse h (text ++ " PST") = Some (midnight_PST day) ->
  let zone := LocalTZA h (midnight_PST day) in
  (hours (-8) <= zone < hours 16 ->
   reservationDateIsTuesday h date = Normal (week_day day =? 2))
  /\ (hours (-32) <= zone < hours (-8) ->
      reservationDateIsTuesday h date = Normal (week_day (day - 1) =? 2)).
Proof.
  intros Ht Hp. cbn zeta. unfold reservationDateIsTuesday.
  rewrite Ht. cbn [bind]. rewrite Hp.
  unfold getDay, week_day, midnight_PST, hours, msPerDay in *.
  split; intros Hz.
  - replace ((day * 86400000 + 8 * 3600000
              + LocalTZA h (day * 86400000 + 8 * 3600000)) / 86400000)
      with day; [reflexivity|].
    apply (Z.div_unique_pos _ _ _
             (8 * 3600000 + LocalTZA h (day * 86400000 + 8 * 3600000)));
      lia.
  - replace ((day * 86400000 + 8 * 3600000
              + LocalTZA h (day * 86400000 + 8 * 3600000)) / 86400000)
      with (day - 1); [reflexivity|].
    apply (Z.div_unique_pos _ _ _
             (86400000 + 8 * 3600000
              + LocalTZA h (day * 86400000 + 8 * 3600000)));
      lia.
Qed.

Lemma tuesday_follows_server_zone_witness :
  reservationDateIsTuesday Ref.host (VStr "2030-01-01") = Normal true.
Proof.
  refine (proj1 (tuesday_follows_server_zone Ref.host (VStr "2030-01-01")
                   "2030-01-01" 21915 eq_refl eq_refl) _).
  unfold hours. cbn. lia.
Defined.

(** X8. The business rules fail open on a date the host cannot read once
    the zone is appended: when [reservation_date] parses on its own but the
    strings built for the closed-day and past checks do not, a well-formed
    request within service hours passes the validator, whatever day it
    names.  A date with a time of its own, such as 2020-01-07T10:00:00, is
    one: it reads as a date, and with " PST" after it the host reads
    nothing. *)
Theorem unreadable_date_passes_rules (h : Host) (people date : value)
  (text s : string) :
  Js.is_number people = true ->
  ToString h date = Normal text ->
  reservationDateIsValid h date = Normal true ->
  service_time (VStr s) ->
  Date_parse h (text ++ " PST") = None ->
  Date_parse h (text ++ " " ++ s ++ " PST") = None ->
  reservationDateIsTuesday h date = Normal false
  /\ reservationNotInTheFuture h date (VStr s) = Normal false
  /\ checkInputs h people date (VStr s) = Normal None.
Proof.
  intros Hp Hx Hd Hs Ht Hf.
  assert (Htue : reservationDateIsTuesday h date = Normal false)
    by (unfold reservationDateIsTuesday; rewrite Hx; cbn [bind];
        now rewrite Ht).
  assert (Hpast : reservationNotInTheFuture h date (VStr s) = Normal false)
    by (unfold reservationNotInTheFuture; rewrite Hx; cbn [bind];
        change (ToString h (VStr s)) with (Normal s); cbn [bind];
        now rewrite Hf).
  split; [exact Htue|]. split; [exact Hpast|].
  destruct (proj2 (time_checks_iff h (VStr s)) Hs) as [Hv Hn].
  apply (checkInputs_passes h people date text s); try assumption.
  unfold malformed_fields. rewrite Hp.
  rewrite (reservationDateIsValid_text h date text Hx) in Hd.
  destruct (Date_parse h text); [|discriminate].
  unfold reservationTimeIsValid in Hv. injection Hv as ->. reflexivity.
Qed.

Lemma unreadable_date_passes_rules_witness :
  checkInputs Ref.host (VNum 2) (VStr "2020-01-07T10:00:00") (VStr "12:00")
  = Normal None.
Proof.
  refine (proj2 (proj2 (unreadable_date_passes_rules Ref.host (VNum 2)
                          (VStr "2020-01-07T10:00:00")
                          "2020-01-07T10:00:00" "12:00"
                          eq_refl eq_refl eq_refl _ eq_refl eq_refl))).
  exists "1"%char, "2"%char, "0"%char, "0"%char.
  split; [reflexivity|]. split.
  - apply hhmm_shape_digits. reflexivity.
  - unfold within_service_hours, minutes_of. cbn. lia.
Defined.

(** X9. On its own the service-hours check reads only the hour and minute
    digits: whatever follows a two-digit HH:MM (seconds, say) changes
    nothing, and a string whose leading characters the host converts to
    [NaN] is not reported. *)
Theorem reservationTimeNotAllowed_reads_four_digits (h : Host)
  (c1 c2 c3 c4 : ascii) (rest : string) :
  hhmm_shape c1 c2 c3 c4 ->
  reservationTimeNotAllowed h (VStr (hhmm c1 c2 c3 c4 ++ rest))
  = reservationTimeNotAllowed h (VStr (hhmm c1 c2 c3 c4))
  /\ forall s,
      Number_of h (Js.slice0 4 (Js.replace ":" "" s)) = None ->
      reservationTimeNotAllowed h (VStr s) = Normal false.
Proof.
  intros Hs. split.
  - destruct Hs as (H1 & H2 & _).
    apply is_digit_code in H1, H2.
    unfold reservationTimeNotAllowed, hhmm.
    cbn [append Js.replace].
    rewrite !ascii_eqb_code. change (char_code ":") with 58.
    destruct (Z.eqb_spec (char_code c1) 58); [lia|].
    destruct (Z.eqb_spec (char_code c2) 58); [lia|].
    rewrite Z.eqb_refl. unfold Js.slice0. cbn [append substring].
    now destruct rest.
  - intros s Hn. unfold reservationTimeNotAllowed. now rewrite Hn.
Qed.

Lemma reservationTimeNotAllowed_reads_four_digits_witness :
  reservationTimeNotAllowed Ref.host (VStr "21:30:59") = Normal false
  /\ reservationTimeNotAllowed Ref.host (VStr "soon") = Normal false.
Proof.
  destruct (reservationTimeNotAllowed_reads_four_digits Ref.host
              "2" "1" "3" "0" ":59" (hhmm_shape_digits "2" "1" "3" "0" eq_refl))
    as [Hrest Hnan].
  split.
  - exact Hrest.
  - exact (Hnan "soon" eq_refl).
Defined.

(** X10. The party size is never range-checked: with any two numbers for
    [people], zero and negative ones included, the validator decides the
    same. *)
Theorem people_is_not_range_checked {DB : Type} (h : Host)
  (st : state DB) (id : string) (data : obj) (n m : Z) :
  hasValidInputs h {| params_reservation_id := id;
                      body_data := Some (Js.set data "people" (VNum n)) |} st
  = hasValidInputs h {| params_reservation_id := id;
                        body_data := Some (Js.set data "people" (VNum m)) |}
                   st.
Proof.
  unfold hasValidInputs. cbn [body_data]. rewrite !get_set.
  cbn [String.eqb Ascii.eqb Bool.eqb].
  unfold checkInputs. reflexivity.
Qed.

(** ** Status updates, continued *)

(** X11. The cancel button, once confirmed, calls
    [PUT /reservations/<id>/status] with the reservation's id and the status
    "cancelled", and makes no call when the user declines.  When that
    payload reaches the [updateStatus] route for the stored reservation it
    was made from, a reservation that is not finished is handed to the
    service with status "cancelled" and every other property as stored; a
    finished one is refused. *)
Theorem cancel_changes_only_status {DB : Type} (h : Host)
  (svc : Service DB) (req : request) (st : state DB) (r : obj) :
  let payload :=
    [("reservation_id", Js.get r "reservation_id");
     ("status", VStr "cancelled")] in
  let looked_up :=
    with_reservation r (logged (SvcRead (params_reservation_id req)) st) in
  cancelClickHandler h r false = Normal None
  /\ cancelClickHandler h r true
     = match ToString h (Js.get r "reservation_id") with
       | Normal id =>
           Normal (Some {| api_method := "PUT";
                           api_path := "/reservations/" ++ id ++ "/status";
                           api_body := VObj [("data", VObj payload)] |})
       | Abrupt => Abrupt
       end
  /\ (svc_read svc (db st) (params_reservation_id req) = Some r ->
      body_data req = Some payload ->
      Js.wf r ->
      if Js.strict_eq_str (Js.get r "status") "finished" then
        run_chain (exports_updateStatus h svc) req st
        = (NextErr FINISHED, looked_up)
      else
        exists record,
          run_chain (exports_updateStatus h svc) req st
          = (Sent (json_data (snd (svc_update svc (db st) record))),
             with_db (fst (svc_update svc (db st) record))
                     (logged (SvcUpdate record) looked_up))
          /\ forall k, Js.get record k
                       = if String.eqb "status" k then VStr "cancelled"
                         else Js.get r k).
Proof.
  cbn zeta. split; [reflexivity|]. split.
  { unfold cancelClickHandler, updateReservationStatus.
    cbn [negb Js.get String.eqb Ascii.eqb Bool.eqb].
    now destruct (ToString h (Js.get r "reservation_id")). }
  intros Hr Hp Hwf.
  rewrite (updateStatus_hit h svc req st r _ Hr Hp).
  destruct (Js.strict_eq_str (Js.get r "status") "finished") eqn:Hf.
  - reflexivity.
  - match goal with
    | |- exists record, (if ?b then ?x else ?y) = _ /\ _ =>
        change (if b then x else y) with x
    end.
    unfold update. cbn [db with_reservation logged].
    destruct (svc_update svc (db st) _) as [d newData] eqn:E.
    eexists. split; [rewrite E; reflexivity|].
    intros k. unfold updatedreservation, data_or_empty.
    cbn [locals_reservation with_reservation]. rewrite Hp.
    rewrite get_spread.
    + rewrite get_spread_empty by assumption.
      cbn [Js.has Js.get existsb fst orb].
      destruct (String.eqb_spec "reservation_id" k) as [<- | Hne];
        [reflexivity|].
      now destruct (String.eqb "status" k).
    + unfold Js.wf. cbn.
      repeat (constructor; [cbn; intuition discriminate|]). constructor.
Qed.

Lemma cancel_changes_only_status_witness :
  exists record,
    calls (snd (run_chain (exports_updateStatus Ref.host Ref.service)
                  (Ref.request_for "2" [("reservation_id", VNum 2);
                                        ("status", VStr "cancelled")])
                  (fresh Ref.sample_store)))
    = [SvcRead "2"; SvcUpdate record]
    /\ Js.get record "status" = VStr "cancelled"
    /\ Js.get record "last_name" = VStr "Lovelace".
Proof.
  assert (Hwf : Js.wf (Ref.row 2 "booked")).
  { unfold Js.wf. cbn.
    repeat (constructor; [cbn; intuition discriminate|]). constructor. }
  pose proof (proj2 (proj2 (cancel_changes_only_status Ref.host Ref.service
                (Ref.request_for "2" [("reservation_id", VNum 2);
                                      ("status", VStr "cancelled")])
                (fresh Ref.sample_store) (Ref.row 2 "booked")))
                eq_refl eq_refl Hwf) as H.
  cbn [Js.strict_eq_str Js.get Ref.row String.eqb Ascii.eqb Bool.eqb app
         Ref.payload] in H.
  destruct H as (record & Hrun & Hget).
  exists record. rewrite Hrun. split; [reflexivity|].
  rewrite !Hget. split; reflexivity.
Defined.

(** X12. "finished" is final for status updates as long as the store
    returns what it was given: after a status update to "finished" has been
    accepted, a status update on the record the service was handed is
    refused, whatever it asks for. *)
Theorem finished_is_final_for_status_updates {DB : Type} (h : Host)
  (svc : Service DB) (req req' : request) (st : state DB) (r p : obj) :
  svc_read svc (db st) (params_reservation_id req) = Some r ->
  body_data req = Some p ->
  Js.wf p ->
  Js.get r "status" <> VStr "finished" ->
  Js.get p "status" = VStr "finished" ->
  let looked_up :=
    with_reservation r (logged (SvcRead (params_reservation_id req)) st) in
  let record := updatedreservation req looked_up in
  let st' := snd (run_chain (exports_updateStatus h svc) req st) in
  calls st' = (calls st ++ [SvcRead (params_reservation_id req);
                            SvcUpdate record])%list
  /\ (svc_read svc (db st') (params_reservation_id req') = Some record ->
      fst (run_chain (exports_updateStatus h svc) req' (fresh (db st')))
      = NextErr FINISHED).
Proof.
  intros Hr Hp Hwp Hnf Hfin. cbn zeta.
  rewrite (updateStatus_hit h svc req st r p Hr Hp).
  apply strict_eq_str_false in Hnf. rewrite Hnf, Hfin.
  cbn [Js.strict_eq_str String.eqb Ascii.eqb Bool.eqb orb].
  unfold update. cbn [db with_reservation logged].
  destruct (svc_update svc (db st) _) as [d newData].
  cbn [snd with_db calls db logged with_reservation]. split.
  - now rewrite <- app_assoc.
  - intros Hr'.
    assert (Hs : Js.get (updatedreservation req
                           (with_reservation r
                              (logged (SvcRead (params_reservation_id req))
                                      st))) "status" = VStr "finished").
    { unfold updatedreservation, data_or_empty.
      cbn [locals_reservation with_reservation]. rewrite Hp.
      rewrite get_spread by assumption.
      destruct (Js.has p "status") eqn:Hh; [exact Hfin|].
      rewrite (get_absent p "status" Hh) in Hfin. discriminate. }
    unfold exports_updateStatus.
    rewrite (id_route_hit svc _ req' (fresh d) _ Hr').
    cbn [run_chain]. unfold statusIsNotFinished.
    cbn [locals_reservation with_reservation]. rewrite Hs. reflexivity.
Qed.

Lemma finished_is_final_for_status_updates_witness :
  fst (run_chain (exports_updateStatus Ref.host Ref.service)
         (Ref.request_for "2" [("status", VStr "cancelled")])
         (fresh (db (snd (run_chain (exports_updateStatus Ref.host Ref.service)
                            (Ref.request_for "2" [("status", VStr "finished")])
                            (fresh Ref.sample_store))))))
  = NextErr FINISHED.
Proof.
  assert (Hwf : Js.wf [("status", VStr "finished")]).
  { unfold Js.wf. cbn. repeat constructor. intros []. }
  assert (Hnf : Js.get (Ref.row 2 "booked") "status" <> VStr "finished")
    by discriminate.
  pose proof (finished_is_final_for_status_updates Ref.host Ref.service
                (Ref.request_for "2" [("status", VStr "finished")])
                (Ref.request_for "2" [("status", VStr "cancelled")])
                (fresh Ref.sample_store) (Ref.row 2 "booked")
                [("status", VStr "finished")]
                eq_refl eq_refl Hwf Hnf eq_refl) as H.
  cbn zeta in H. destruct H as [_ H]. apply H. reflexivity.
Defined.

(** X13. A status update whose body has no [data] is not answered with a
    400: on a stored reservation that is not finished the status check
    raises a [TypeError] (the store is left alone); on a finished one the
    request is refused as for any other. *)
Theorem status_update_without_data {DB : Type} (h : Host)
  (svc : Service DB) (req : request) (st : state DB) (r : obj) :
  svc_read svc (db st) (params_reservation_id req) = Some r ->
  body_data req = None ->
  let looked_up :=
    with_reservation r (logged (SvcRead (params_reservation_id req)) st) in
  run_chain (exports_updateStatus h svc) req st
  = if Js.strict_eq_str (Js.get r "status") "finished"
    then (NextErr FINISHED, looked_up)
    else (Throw, looked_up).
Proof.
  intros Hr Hd. cbn zeta. unfold exports_updateStatus.
  rewrite (id_route_hit svc _ req st r Hr). cbn [run_chain].
  unfold statusIsNotFinished at 1. cbn [locals_reservation with_reservation].
  destruct (Js.strict_eq_str (Js.get r "status") "finished") eqn:Hf;
    cbn [negb].
  - apply strict_eq_str_true in Hf. now rewrite Hf.
  - unfold hasValidStatusRequest at 1. now rewrite Hd.
Qed.

Lemma status_update_without_data_witness :
  fst (run_chain (exports_updateStatus Ref.host Ref.service)
         {| params_reservation_id := "2"; body_data := None |}
         (fresh Ref.sample_store)) = Throw.
Proof.
  rewrite (status_update_without_data Ref.host Ref.service
             {| params_reservation_id := "2"; body_data := None |}
             (fresh Ref.sample_store) (Ref.row 2 "booked") eq_refl eq_refl).
  reflexivity.
Defined.
